(** * WaterDisrupitions: the notification pipeline of [water_alerts.py]

    A shallow embedding of [water_alerts.py] and the properties of its
    match extractor ([check_disruptions]), its ledger
    ([load_last_notification], [save_last_notification]), its repeat
    filter ([should_send_notification]) and its single pass ([main]).

    Conventions of the embedding:
    - Python exceptions are an explicit [outcome]; code that touches the
      file system, the clock or the network runs in the state-and-exception
      monad [M] over a [world].
    - [print] and [pprint] only write to standard output; they are left out.
    - Times are exact rationals: the rounding of binary floating point in
      [time.time()] and in the subtraction is below the model.
    - [str.lower] and [int()] belong to the interpreter; they are the
      section variables [lower] and [py_int], and no proof depends on what
      they compute.
    - [last_notification.json] is held as the sequence of JSON lexemes it
      contains; white space and the spelling of numbers and of string
      escapes are below the model. *)

From Stdlib Require Import List String Ascii Bool ZArith QArith Lia DecimalString.
Import ListNotations.

#[local] Set Warnings "-register-all".

Local Open Scope string_scope.
Local Open Scope list_scope.

(** ** Python values and exceptions *)

(** The exception classes the program can meet; all derive from
    [Exception]. *)
Inductive exn : Type :=
| FileNotFoundError
| PermissionError
| JSONDecodeError
| AttributeError
| TypeError
| KeyError
| ValueError
| HTTPError.

Inductive outcome (A : Type) : Type :=
| Ok (a : A)
| Raise (e : exn).

Arguments Ok {A} a.
Arguments Raise {A} e.

(** What a feed entry attribute holds: a [str], or [None] for an entry
    the parser filled badly. *)
Inductive pyval : Type :=
| PStr (s : string)
| PNone.

(** What [json.load] returns. *)
Inductive json : Type :=
| JNull
| JBool (b : bool)
| JNum (q : Q)
| JStr (s : string)
| JArr (l : list json)
| JObj (m : list (string * json)).

(** A Python [dict] with string keys, in insertion order, keys unique. *)
Definition dict (A : Type) : Type := list (string * A).

Fixpoint dict_get {A : Type} (k : string) (d : dict A) : option A :=
  match d with
  | [] => None
  | (k', v) :: rest => if String.eqb k k' then Some v else dict_get k rest
  end.

(** [d[k] = v]: overwrite in place, or append a new key. *)
Fixpoint dict_set {A : Type} (k : string) (v : A) (d : dict A) : dict A :=
  match d with
  | [] => [(k, v)]
  | (k', v') :: rest =>
      if String.eqb k k' then (k, v) :: rest else (k', v') :: dict_set k v rest
  end.

(** [d.get(k, default)]. *)
Definition get_default {A : Type} (k : string) (default : A) (d : dict A) : A :=
  match dict_get k d with
  | Some v => v
  | None => default
  end.

(** [str(v)], as an f-string formats it. *)
Definition py_str (v : pyval) : string :=
  match v with
  | PStr s => s
  | PNone => "None"
  end.

(** [hay.startswith(needle)]. *)
Fixpoint starts_with (needle hay : string) : bool :=
  match needle, hay with
  | EmptyString, _ => true
  | String _ _, EmptyString => false
  | String a needle', String b hay' => Ascii.eqb a b && starts_with needle' hay'
  end.

(** [needle in hay] on two [str]: [needle] starts at some position. *)
Fixpoint contains (needle hay : string) : bool :=
  starts_with needle hay
  || match hay with
     | EmptyString => false
     | String _ rest => contains needle rest
     end.

(** Truth value of a deserialised document ([not x] in Python). *)
Definition truthy (j : json) : bool :=
  match j with
  | JNull => false
  | JBool b => b
  | JNum q => negb (Qeq_bool q 0)
  | JStr s => negb (String.eqb s "")
  | JArr l => match l with [] => false | _ => true end
  | JObj m => match m with [] => false | _ => true end
  end.

(** [x.get(k)] and [x.get(k, default)]: only a [dict] has the method; the
    missing key gives [None], or the default. *)
Definition json_get (j : json) (k : string) (default : json) : outcome json :=
  match j with
  | JObj m => Ok (get_default k default m)
  | _ => Raise AttributeError
  end.

(** The number a value stands for in [float - x]; [bool] is an [int]. *)
Definition as_number (j : json) : outcome Q :=
  match j with
  | JNum q => Ok q
  | JBool b => Ok (if b then 1%Q else 0%Q)
  | _ => Raise TypeError
  end.

(** [a != b] for a feed value on the left and a deserialised value on the
    right: a [str] equals only an equal [str], [None] only [None]. *)
Definition py_ne (a : pyval) (b : json) : bool :=
  match a, b with
  | PStr s, JStr t => negb (String.eqb s t)
  | PNone, JNull => false
  | _, _ => true
  end.

(** The value [json.dump] writes for a feed value. *)
Definition to_json (v : pyval) : json :=
  match v with
  | PStr s => JStr s
  | PNone => JNull
  end.

Definition Qlt_bool (x y : Q) : bool := negb (Qle_bool y x).

(** ** The JSON text of the ledger file *)

Inductive token : Type :=
| LBrace
| RBrace
| LBrack
| RBrack
| Colon
| Comma
| TNull
| TTrue
| TFalse
| TNumber (q : Q)
| TString (s : string).

(** [json.dumps]: the lexemes of a value, in order. *)
Fixpoint encode (j : json) : list token :=
  match j with
  | JNull => [TNull]
  | JBool true => [TTrue]
  | JBool false => [TFalse]
  | JNum q => [TNumber q]
  | JStr s => [TString s]
  | JArr l =>
      let fix items (l : list json) : list token :=
        match l with
        | [] => []
        | [x] => encode x
        | x :: rest => encode x ++ Comma :: items rest
        end in
      LBrack :: items l ++ [RBrack]
  | JObj m =>
      let fix members (m : list (string * json)) : list token :=
        match m with
        | [] => []
        | [(k, v)] => TString k :: Colon :: encode v
        | (k, v) :: rest => TString k :: Colon :: encode v ++ Comma :: members rest
        end in
      LBrace :: members m ++ [RBrace]
  end.

(** What the decoder is in the middle of. *)
Inductive mode : Type :=
| MValue
| MItems (acc : list json)
| MMembers (acc : dict json).

(** The decoder of [json.loads]: a value, the items of an array after
    its bracket, or the members of an object after its brace. A repeated
    key keeps its last value. The fuel bounds the number of calls. *)
Fixpoint parse (fuel : nat) (m : mode) (ts : list token)
  : option (json * list token) :=
  match fuel with
  | O => None
  | S fuel' =>
      match m with
      | MValue =>
          match ts with
          | TNull :: rest => Some (JNull, rest)
          | TTrue :: rest => Some (JBool true, rest)
          | TFalse :: rest => Some (JBool false, rest)
          | TNumber q :: rest => Some (JNum q, rest)
          | TString s :: rest => Some (JStr s, rest)
          | LBrack :: RBrack :: rest => Some (JArr [], rest)
          | LBrack :: rest => parse fuel' (MItems []) rest
          | LBrace :: RBrace :: rest => Some (JObj [], rest)
          | LBrace :: rest => parse fuel' (MMembers []) rest
          | _ => None
          end
      | MItems acc =>
          match parse fuel' MValue ts with
          | Some (v, Comma :: rest) => parse fuel' (MItems (acc ++ [v])) rest
          | Some (v, RBrack :: rest) => Some (JArr (acc ++ [v]), rest)
          | _ => None
          end
      | MMembers acc =>
          match ts with
          | TString k :: Colon :: rest =>
              match parse fuel' MValue rest with
              | Some (v, Comma :: rest') =>
                  parse fuel' (MMembers (dict_set k v acc)) rest'
              | Some (v, RBrace :: rest') =>
                  Some (JObj (dict_set k v acc), rest')
              | _ => None
              end
          | _ => None
          end
      end
  end.

(** [json.loads]: one value and nothing after it. Twice the length and
    one more is enough fuel ([json_loads_fuel] below). *)
Definition json_loads (ts : list token) : outcome json :=
  match parse (S (2 * List.length ts)) MValue ts with
  | Some (v, []) => Ok v
  | _ => Raise JSONDecodeError
  end.

(** ** The world the program runs in *)

(** [last_notification.json] in the working directory. *)
Inductive file : Type :=
| Missing
| Denied
| Content (ts : list token).

(** One item of a feed, as the program reads it: the attributes that
    exist, and [str(entry)]. *)
Record entry : Type := mkEntry {
  e_summary : option pyval;
  e_description : option pyval;
  e_id : option pyval;
  e_title : option pyval;
  e_str : string
}.

(** The sections of [config.ini]. *)
Definition ini : Type := dict (dict string).

(** The form sent to the Pushover endpoint. *)
Record form : Type := mkForm {
  f_token : string;
  f_user : string;
  f_title : string;
  f_message : string
}.

Record world : Type := mkWorld {
  w_config : option ini;                    (* config.ini, when it exists *)
  w_feed : string -> outcome (list entry);  (* GET, status check and parse *)
  w_pushover : form -> option exn;          (* POST: [None] is a 2xx answer *)
  w_posted : list form;                     (* the POSTs made so far *)
  w_file : file;                            (* last_notification.json *)
  w_clock : nat -> Q;                       (* successive readings, seconds *)
  w_reads : nat                             (* readings taken so far *)
}.

Definition set_file (f : file) (w : world) : world :=
  mkWorld (w_config w) (w_feed w) (w_pushover w) (w_posted w) f
          (w_clock w) (w_reads w).

Definition add_post (d : form) (w : world) : world :=
  mkWorld (w_config w) (w_feed w) (w_pushover w) (w_posted w ++ [d])
          (w_file w) (w_clock w) (w_reads w).

Definition tick (w : world) : world :=
  mkWorld (w_config w) (w_feed w) (w_pushover w) (w_posted w) (w_file w)
          (w_clock w) (S (w_reads w)).

(** ** State and exceptions *)

Definition M (A : Type) : Type := world -> outcome A * world.

Definition ret {A : Type} (a : A) : M A := fun w => (Ok a, w).

Definition raise {A : Type} (e : exn) : M A := fun w => (Raise e, w).

Definition bind {A B : Type} (c : M A) (k : A -> M B) : M B :=
  fun w =>
    match c w with
    | (Ok a, w') => k a w'
    | (Raise e, w') => (Raise e, w')
    end.

Definition lift {A : Type} (o : outcome A) : M A := fun w => (o, w).

(** [try: c  except Exception: h]; the effects of [c] up to the raise
    stay. *)
Definition try_except {A : Type} (c : M A) (h : exn -> M A) : M A :=
  fun w =>
    match c w with
    | (Ok a, w') => (Ok a, w')
    | (Raise e, w') => h e w'
    end.

Notation "x <- c ;; k" := (bind c (fun x => k))
  (at level 61, c at next level, right associativity).
Notation "c ;;; k" := (bind c (fun _ => k))
  (at level 61, right associativity).

(** [time.time()]. *)
Definition time_time : M Q := fun w => (Ok (w_clock w (w_reads w)), tick w).

(** [open('last_notification.json', 'w')]: creates the file or empties
    it. *)
Definition open_w : M unit :=
  fun w =>
    match w_file w with
    | Denied => (Raise PermissionError, w)
    | _ => (Ok tt, set_file (Content []) w)
    end.

(** [f.write] of some lexemes at the end of the open file. *)
Definition write (ts : list token) : M unit :=
  fun w =>
    match w_file w with
    | Content old => (Ok tt, set_file (Content (old ++ ts)) w)
    | _ => (Ok tt, w)
    end.

(** ** The ledger *)

Definition load_last_notification : M json :=
  fun w =>
    match w_file w with
    | Missing => (Ok (JObj []), w)          (* except FileNotFoundError *)
    | Denied => (Raise PermissionError, w)
    | Content ts => (json_loads ts, w)
    end.

(** The record [save_last_notification] builds. *)
Definition notification_data (t : Q) (disruption : dict pyval) : json :=
  JObj [ ("timestamp", JNum t);
         ("disruption_id", to_json (get_default "id" (PStr "") disruption));
         ("description", to_json (get_default "description" (PStr "") disruption)) ].

Definition save_last_notification (disruption : dict pyval) : M unit :=
  t <- time_time ;;
  open_w ;;;
  write (encode (notification_data t disruption)).

(** [save_last_notification] stopped after [k] effects on the file: the
    opening is the first, each lexeme that reaches the file one more. *)
Definition interrupted_save (k : nat) (disruption : dict pyval) : M unit :=
  t <- time_time ;;
  match k with
  | O => ret tt
  | S k' =>
      open_w ;;;
      write (firstn k' (encode (notification_data t disruption)))
  end.

(** ** The repeat filter *)

Definition should_send_notification
    (disruption : dict pyval) (min_interval_minutes : Z) : M bool :=
  last_notification <- load_last_notification ;;
  if negb (truthy last_notification) then ret true else
  current_time <- time_time ;;
  stamp <- lift (json_get last_notification "timestamp" (JNum 0)) ;;
  stamp <- lift (as_number stamp) ;;
  let time_since_last := (current_time - stamp)%Q in
  if Qlt_bool time_since_last (inject_Z (min_interval_minutes * 60)) then ret false else
  let current_id := get_default "id" (PStr "") disruption in
  last_id <- lift (json_get last_notification "disruption_id" JNull) ;;
  if py_ne current_id last_id then ret true else
  last_description <- lift (json_get last_notification "description" JNull) ;;
  if py_ne (get_default "description" (PStr "") disruption) last_description
  then ret true
  else ret false.

(** ** The program parts that call into the interpreter *)

Section Program.

(** [str.lower]. *)
Variable lower : string -> string.

(** [int(s)]: [None] when it raises [ValueError]. *)
Variable py_int : string -> option Z.

(** *** The match extractor *)

(** The body text of an entry, by [hasattr]: [summary], else
    [description], else [str(entry)]. *)
Definition entry_body (e : entry) : pyval :=
  match e_summary e with
  | Some v => v
  | None =>
      match e_description e with
      | Some v => v
      | None => PStr (e_str e)
      end
  end.

(** [v.lower()]: [None] has no such method. *)
Definition py_lower (v : pyval) : outcome string :=
  match v with
  | PStr s => Ok (lower s)
  | PNone => Raise AttributeError
  end.

(** [getattr(entry, name, '')]. *)
Definition getattr_or_empty (a : option pyval) : pyval :=
  match a with
  | Some v => v
  | None => PStr ""
  end.

(** The [dict] the extractor returns for an entry. *)
Definition match_of (e : entry) : dict pyval :=
  [ ("id", getattr_or_empty (e_id e));
    ("title", getattr_or_empty (e_title e));
    ("description", entry_body e) ].

(** The second [try] block of the loop body: [Ok (Some d)] when it
    returns [d], [Ok None] when it falls through to the next entry. *)
Definition scan_entry (e : entry) (area : string)
  : outcome (option (dict pyval)) :=
  let description := entry_body e in
  match py_lower description with
  | Raise x => Raise x
  | Ok low =>
      if contains (lower area) low then Ok (Some (match_of e)) else Ok None
  end.

Fixpoint check_disruptions (entries : list entry) (area : string)
  : outcome (option (dict pyval)) :=
  match entries with
  | [] => Ok None
  | e :: rest =>
      match scan_entry e area with
      | Ok (Some d) => Ok (Some d)
      | Ok None => check_disruptions rest area
      | Raise _ => check_disruptions rest area     (* except Exception: continue *)
      end
  end.

(** *** Configuration, feed and transport *)

Definition load_config : M ini :=
  fun w =>
    match w_config w with
    | None => (Raise FileNotFoundError, w)
    | Some c => (Ok c, w)
    end.

(** [mapping[key]]. *)
Definition getitem {A : Type} (k : string) (d : dict A) : outcome A :=
  match dict_get k d with
  | Some v => Ok v
  | None => Raise KeyError
  end.

(** [section.getint(key, fallback)]. *)
Definition getint (k : string) (fallback : Z) (section : dict string)
  : outcome Z :=
  match dict_get k section with
  | None => Ok fallback
  | Some s =>
      match py_int s with
      | Some z => Ok z
      | None => Raise ValueError
      end
  end.

Definition fetch_rss_feed (url : string) : M (list entry) :=
  fun w => (w_feed w url, w).

Definition send_pushover_notification
    (api_key user_key title message : string) : M unit :=
  fun w =>
    let data := mkForm api_key user_key title message in
    match w_pushover w data with
    | None => (Ok tt, add_post data w)
    | Some e => (Raise e, add_post data w)
    end.

(** [if disruption:] on what the extractor returned. *)
Definition found (disruption : option (dict pyval)) : bool :=
  match disruption with
  | None => false
  | Some [] => false
  | Some _ => true
  end.

(** *** One pass *)

Definition main_body : M unit :=
  config <- load_config ;;
  rss <- lift (getitem "RSS" config) ;;
  rss_url <- lift (getitem "url" rss) ;;
  rss <- lift (getitem "RSS" config) ;;
  area <- lift (getitem "area" rss) ;;
  pushover <- lift (getitem "PUSHOVER" config) ;;
  pushover_api <- lift (getitem "api_key" pushover) ;;
  pushover <- lift (getitem "PUSHOVER" config) ;;
  pushover_user <- lift (getitem "user_key" pushover) ;;
  min_interval <-
    match dict_get "NOTIFICATIONS" config with
    | Some section => lift (getint "min_interval_minutes" 30 section)
    | None => ret 30%Z
    end ;;
  feed <- fetch_rss_feed rss_url ;;
  disruption <- lift (check_disruptions feed area) ;;
  match disruption with
  | Some d =>
      if found disruption then
        send <- should_send_notification d min_interval ;;
        if send then
          let title := "Water Outage" in
          let message :=
            ("Disruption in " ++ area ++ ": "
             ++ py_str (get_default "description" (PStr "") d))%string in
          send_pushover_notification pushover_api pushover_user title message ;;;
          save_last_notification d
        else ret tt
      else ret tt
  | None => ret tt
  end.

(** [main]: every exception of the pass is caught and reported. *)
Definition main : M unit :=
  try_except main_body (fun _ => ret tt).

End Program.

(** [str.lower] on ASCII text, for the examples. *)
Definition ascii_lower_char (c : ascii) : ascii :=
  let n := nat_of_ascii c in
  if (65 <=? n)%nat && (n <=? 90)%nat then ascii_of_nat (n + 32) else c.

Fixpoint ascii_lower (s : string) : string :=
  match s with
  | EmptyString => EmptyString
  | String c rest => String (ascii_lower_char c) (ascii_lower rest)
  end.

(** [int] on an optional sign and decimal digits, for the examples. *)
Definition decimal_int (s : string) : option Z :=
  option_map Z.of_int (DecimalString.NilZero.int_of_string s).


(** ** Notions the statements use *)

(** The verdict of the checks that follow the cooldown. *)
Definition verdict (disruption : dict pyval) (ledger : dict json) : bool :=
  if py_ne (get_default "id" (PStr "") disruption)
           (get_default "disruption_id" JNull ledger)
  then true
  else if py_ne (get_default "description" (PStr "") disruption)
                (get_default "description" JNull ledger)
       then true
       else false.

(** [ensures c w Q]: run from [w], the computation [c] ends with a result
    and a world that satisfy [Q]. *)
Definition ensures {A : Type} (c : M A) (w : world)
    (Q : outcome A -> world -> Prop) : Prop :=
  Q (fst (c w)) (snd (c w)).

(** What one pass may do to the ledger and to the transport, from [w] to
    [w']: make no POST and leave the file; or, after the filter answered
    [True], make one POST, and touch the file only if that POST was
    accepted. *)
Definition pass_effect (w w' : world) : Prop :=
  (w_posted w' = w_posted w /\ w_file w' = w_file w)
  \/ (exists d m data,
         fst (should_send_notification d m w) = Ok true
         /\ w_posted w' = w_posted w ++ [data]
         /\ (w_pushover w data = None \/ w_file w' = w_file w)).

(** The fuel that is enough for [parse] in mode [m] on [ts]. *)
Definition fuel_for (m : mode) (ts : list token) : nat :=
  match m with
  | MValue => S (2 * List.length ts)
  | _ => S (S (2 * List.length ts))
  end.

(** ** Worlds and inputs of the examples *)

Module Examples.

(** The scenario of the specification: one entry about Riverside. *)
Definition riverside : entry :=
  mkEntry None
          (Some (PStr "Disruption in Riverside due to main break"))
          (Some (PStr "w-17")) (Some (PStr "Outage")) "{}".

Definition hilltop : entry :=
  mkEntry (Some (PStr "Planned works in Hilltop")) None
          (Some (PStr "w-16")) None "{}".

Definition riverside_again : entry :=
  mkEntry (Some (PStr "RIVERSIDE: supply restored")) None
          (Some (PStr "w-18")) None "{}".

(** An entry whose [summary] is [None]. *)
Definition broken : entry :=
  mkEntry (Some PNone) None (Some (PStr "w-15")) None "{}".

Definition candidate : dict pyval :=
  [ ("id", PStr "w-17"); ("title", PStr "Outage");
    ("description", PStr "Disruption in Riverside due to main break") ].

Definition config : ini :=
  [ ("RSS", [("url", "https://example.org/feed"); ("area", "riverside")]);
    ("PUSHOVER", [("api_key", "app"); ("user_key", "me")]);
    ("NOTIFICATIONS", [("min_interval_minutes", "30")]) ].

(** The record of a notification for [candidate] sent at second 1000. *)
Definition sent_at_1000 : list token :=
  encode (notification_data 1000 candidate).

(** A record without a [timestamp]. *)
Definition no_timestamp : list token :=
  [ LBrace; TString "disruption_id"; Colon; TString "w-17"; Comma;
    TString "description"; Colon; TString "old text"; RBrace ].

(** A clock that shows [t] and then advances one second a reading. *)
Definition clock_from (t : Z) : nat -> Q :=
  fun n => inject_Z (t + Z.of_nat n).

(** A world with the feed [feed], the ledger file [f], the time [t], and
    a transport that answers [answer]. *)
Definition world_of (feed : list entry) (f : file) (t : Z)
    (answer : option exn) : world :=
  mkWorld (Some config) (fun _ => Ok feed) (fun _ => answer) [] f
          (clock_from t) 0.

End Examples.

(** ** The pass, step by step *)

(** [o] and then [k] on its value; an exception ends the chain. *)
Definition and_then {A B : Type} (o : outcome A) (k : A -> outcome B)
  : outcome B :=
  match o with
  | Ok a => k a
  | Raise e => Raise e
  end.

(** What [main] has in hand when it reaches [if disruption:]: the area,
    the two credentials, the interval and the result of the extractor; or
    the exception that ended the pass before. None of these steps changes
    the world. *)
Definition pass_inputs (lower : string -> string) (py_int : string -> option Z)
    (w : world)
  : outcome (string * string * string * Z * option (dict pyval)) :=
  match w_config w with
  | None => Raise FileNotFoundError
  | Some config =>
      and_then (getitem "RSS" config) (fun rss =>
      and_then (getitem "url" rss) (fun rss_url =>
      and_then (getitem "area" rss) (fun area =>
      and_then (getitem "PUSHOVER" config) (fun pushover =>
      and_then (getitem "api_key" pushover) (fun pushover_api =>
      and_then (getitem "user_key" pushover) (fun pushover_user =>
      and_then (match dict_get "NOTIFICATIONS" config with
                | Some section => getint py_int "min_interval_minutes" 30 section
                | None => Ok 30%Z
                end) (fun min_interval =>
      and_then (w_feed w rss_url) (fun feed =>
      and_then (check_disruptions lower feed area) (fun disruption =>
      Ok (area, pushover_api, pushover_user, min_interval, disruption))))))))))
  end.

(** The form [main] posts for the match [d] in [area]. *)
Definition notice (api_key user_key area : string) (d : dict pyval) : form :=
  mkForm api_key user_key "Water Outage"
         ("Disruption in " ++ area ++ ": "
          ++ py_str (get_default "description" (PStr "") d))%string.

(** The two statements of the sending branch. *)
Definition notify (api_key user_key area : string) (d : dict pyval) : M unit :=
  send_pushover_notification api_key user_key (f_title (notice api_key user_key area d))
                             (f_message (notice api_key user_key area d)) ;;;
  save_last_notification d.

(** The world a pass ends in. *)
Definition pass_result (lower : string -> string) (py_int : string -> option Z)
    (w : world) : world :=
  match pass_inputs lower py_int w with
  | Ok (area, api_key, user_key, min_interval, Some d) =>
      if found (Some d) then
        match should_send_notification d min_interval w with
        | (Ok true, w1) => snd (notify api_key user_key area d w1)
        | (_, w1) => w1
        end
      else w
  | _ => w
  end.

(** The world [w] with another [config.ini]. *)
Definition set_config (c : option ini) (w : world) : world :=
  mkWorld c (w_feed w) (w_pushover w) (w_posted w) (w_file w)
          (w_clock w) (w_reads w).

(** ** The decoder and its fuel *)

(** Case analysis on one unfolding of [parse], with [IH] about the inner
    calls. *)
Ltac parse_cases IH :=
  repeat match goal with
         | H : None = Some _ |- _ => discriminate H
         | H : Some _ = Some _ |- _ => inversion H; subst; clear H
         | H : context [match parse ?n ?m ?ts with _ => _ end] |- _ =>
             let E := fresh "E" in
             destruct (parse n m ts) as [[? ?]|] eqn:E; [apply IH in E|]
         | H : context [match ?x with _ => _ end] |- _ => is_var x; destruct x
         | H : parse _ _ _ = Some _ |- _ => apply IH in H
         end.

(** Whatever [parse] returns, it has consumed a lexeme. *)
Lemma parse_shrinks (n : nat) :
  forall (m : mode) (ts : list token) (v : json) (rest : list token),
    parse n m ts = Some (v, rest) ->
    (List.length rest < List.length ts)%nat.
Proof.
  induction n as [|n IH]; intros m ts v rest H; [discriminate|].
  cbn [parse] in H.
  parse_cases IH; simpl in *; lia.
Qed.

(** With [fuel_for] fuel the decoder has reached its answer: more fuel
    does not change it. *)
Lemma parse_fuel (n : nat) :
  forall (m : mode) (ts : list token) (k : nat),
    (fuel_for m ts <= n)%nat -> (n <= k)%nat ->
    parse k m ts = parse n m ts.
Proof.
  induction n as [|n IH]; intros m ts k Hfuel Hk.
  - destruct m; simpl in Hfuel; lia.
  - destruct k as [|k]; [lia|]. cbn [parse].
    destruct m.
    + destruct ts as [|t ts]; [reflexivity|].
      destruct t; try reflexivity;
        (destruct ts as [|t' ts]; [|destruct t']; try reflexivity;
         apply IH; simpl in *; lia).
    + rewrite (IH MValue ts k) by (simpl in *; lia).
      destruct (parse n MValue ts) as [[v r]|] eqn:E; [|reflexivity].
      apply parse_shrinks in E.
      destruct r as [|t r]; [reflexivity|].
      destruct t; try reflexivity. apply IH; simpl in *; lia.
    + destruct ts as [|t ts]; [reflexivity|].
      destruct t; try reflexivity.
      destruct ts as [|t' ts]; [reflexivity|].
      destruct t'; try reflexivity.
      rewrite (IH MValue ts k) by (simpl in *; lia).
      destruct (parse n MValue ts) as [[v r]|] eqn:E; [|reflexivity].
      apply parse_shrinks in E.
      destruct r as [|t r]; [reflexivity|].
      destruct t; try reflexivity; apply IH; simpl in *; lia.
Qed.

(** The fuel of [json_loads] is enough: no larger amount decodes more. *)
Lemma json_loads_fuel (ts : list token) (k : nat) :
  (S (2 * List.length ts) <= k)%nat ->
  parse k MValue ts = parse (S (2 * List.length ts)) MValue ts.
Proof. intros Hk. now apply parse_fuel. Qed.
(** ** Facts about the building blocks *)

Lemma Qlt_bool_iff (x y : Q) : Qlt_bool x y = true <-> (x < y)%Q.
Proof.
  unfold Qlt_bool. rewrite negb_true_iff. split.
  - intros H. apply Qnot_le_lt. intros Hle.
    apply Qle_bool_iff in Hle. congruence.
  - intros H. destruct (Qle_bool y x) eqn:E; [|reflexivity].
    apply Qle_bool_iff in E. exfalso. exact (Qlt_not_le _ _ H E).
Qed.

Lemma Qlt_bool_false_iff (x y : Q) : Qlt_bool x y = false <-> (y <= x)%Q.
Proof.
  unfold Qlt_bool. rewrite negb_false_iff. apply Qle_bool_iff.
Qed.

Lemma truthy_record (m : dict json) : m <> [] -> truthy (JObj m) = true.
Proof. destruct m; [congruence | reflexivity]. Qed.

Lemma dict_get_set_other {A : Type} (k k' : string) (v : A) (d : dict A) :
  k <> k' -> dict_get k (dict_set k' v d) = dict_get k d.
Proof.
  intros Hne. induction d as [|[k0 v0] d IH]; simpl.
  - destruct (String.eqb_spec k k'); [contradiction | reflexivity].
  - destruct (String.eqb_spec k' k0) as [->|Hk]; simpl.
    + destruct (String.eqb_spec k k0); [contradiction | reflexivity].
    + destruct (String.eqb_spec k k0); [reflexivity | exact IH].
Qed.

Lemma dict_get_set_same {A : Type} (k : string) (v : A) (d : dict A) :
  dict_get k (dict_set k v d) = Some v.
Proof.
  induction d as [|[k0 v0] d IH]; simpl.
  - now rewrite String.eqb_refl.
  - destruct (String.eqb_spec k k0) as [->|Hk]; simpl.
    + now rewrite String.eqb_refl.
    + destruct (String.eqb_spec k k0); [contradiction | exact IH].
Qed.

Lemma dict_set_nonempty {A : Type} (k : string) (v : A) (d : dict A) :
  dict_set k v d <> [].
Proof. destruct d as [|[k0 v0] d]; simpl; [|destruct (k =? k0)]; discriminate. Qed.

(** On a file that holds a non-empty object the filter reads the clock
    once and decides from the fields. *)
Lemma should_send_on_record (disruption : dict pyval) (m : Z) (w : world)
    (ts : list token) (ledger : dict json) :
  w_file w = Content ts ->
  json_loads ts = Ok (JObj ledger) ->
  ledger <> [] ->
  should_send_notification disruption m w =
    match as_number (get_default "timestamp" (JNum 0) ledger) with
    | Raise e => (Raise e, tick w)
    | Ok stamp =>
        (Ok (if Qlt_bool (w_clock w (w_reads w) - stamp) (inject_Z (m * 60))
             then false
             else verdict disruption ledger),
         tick w)
    end.
Proof.
  intros Hfile Hload Hne.
  unfold should_send_notification, bind, load_last_notification.
  rewrite Hfile, Hload, (truthy_record _ Hne). simpl.
  unfold lift, verdict.
  destruct (as_number (get_default "timestamp" (JNum 0) ledger)) as [stamp|e];
    [|reflexivity].
  destruct (Qlt_bool _ _); [reflexivity|].
  destruct (py_ne _ _); [reflexivity|].
  destruct (py_ne _ _); reflexivity.
Qed.

(** ** The repeat filter *)

(** C1 (cooldown dominance). When the ledger file holds a record and the
    time since its [timestamp] is strictly below the cooldown of
    [min_interval_minutes * 60] seconds, [should_send_notification]
    answers [False], whatever the id and the description of the candidate
    and of the record are. *)
Theorem cooldown_suppresses
    (disruption : dict pyval) (min_interval_minutes : Z) (w : world)
    (ts : list token) (ledger : dict json) (stamp : Q) :
  w_file w = Content ts ->
  json_loads ts = Ok (JObj ledger) ->
  ledger <> [] ->
  as_number (get_default "timestamp" (JNum 0) ledger) = Ok stamp ->
  (w_clock w (w_reads w) - stamp < inject_Z (min_interval_minutes * 60))%Q ->
  fst (should_send_notification disruption min_interval_minutes w) = Ok false.
Proof.
  intros Hfile Hload Hne Hstamp Hlt.
  rewrite (should_send_on_record _ _ _ _ _ Hfile Hload Hne), Hstamp.
  apply Qlt_bool_iff in Hlt. now rewrite Hlt.
Qed.

Lemma cooldown_suppresses_witness :
  fst (should_send_notification
         [("id", PStr "w-99"); ("description", PStr "another text")] 30
         (Examples.world_of [] (Content Examples.sent_at_1000) 1600 None))
  = Ok false.
Proof.
  apply (cooldown_suppresses _ 30 _ Examples.sent_at_1000
           [ ("timestamp", JNum 1000); ("disruption_id", JStr "w-17");
             ("description", JStr "Disruption in Riverside due to main break") ]
           1000%Q).
  - reflexivity.
  - reflexivity.
  - discriminate.
  - reflexivity.
  - vm_compute. reflexivity.
Defined.

(** C2 (after the cooldown). When the ledger file holds a record and the
    time since its [timestamp] has reached the cooldown, the answer is
    [True] if the candidate's id differs from the record's
    [disruption_id]; otherwise [True] if the descriptions differ;
    otherwise [False]. *)
Theorem after_cooldown_compares
    (disruption : dict pyval) (min_interval_minutes : Z) (w : world)
    (ts : list token) (ledger : dict json) (stamp : Q) :
  w_file w = Content ts ->
  json_loads ts = Ok (JObj ledger) ->
  ledger <> [] ->
  as_number (get_default "timestamp" (JNum 0) ledger) = Ok stamp ->
  (inject_Z (min_interval_minutes * 60) <= w_clock w (w_reads w) - stamp)%Q ->
  fst (should_send_notification disruption min_interval_minutes w) =
    Ok (if py_ne (get_default "id" (PStr "") disruption)
                 (get_default "disruption_id" JNull ledger)
        then true
        else if py_ne (get_default "description" (PStr "") disruption)
                      (get_default "description" JNull ledger)
             then true
             else false).
Proof.
  intros Hfile Hload Hne Hstamp Hle.
  rewrite (should_send_on_record _ _ _ _ _ Hfile Hload Hne), Hstamp.
  apply Qlt_bool_false_iff in Hle. now rewrite Hle.
Qed.

Lemma after_cooldown_compares_witness :
  fst (should_send_notification
         [("id", PStr "w-17"); ("description", PStr "Supply restored")] 30
         (Examples.world_of [] (Content Examples.sent_at_1000) 3400 None))
  = Ok true.
Proof.
  refine (after_cooldown_compares _ 30 _ Examples.sent_at_1000
            [ ("timestamp", JNum 1000); ("disruption_id", JStr "w-17");
              ("description", JStr "Disruption in Riverside due to main break") ]
            1000%Q _ _ _ _ _).
  - reflexivity.
  - reflexivity.
  - discriminate.
  - reflexivity.
  - vm_compute. discriminate.
Defined.

(** C3 (cold start). When no ledger file exists, the answer is [True]
    for every candidate, every cooldown and every time, and nothing is
    read but the file system. *)
Theorem cold_start_sends
    (disruption : dict pyval) (min_interval_minutes : Z) (w : world) :
  w_file w = Missing ->
  should_send_notification disruption min_interval_minutes w = (Ok true, w).
Proof.
  intros Hfile.
  unfold should_send_notification, bind, load_last_notification.
  now rewrite Hfile.
Qed.

Lemma cold_start_sends_witness :
  should_send_notification Examples.candidate 30
    (Examples.world_of [] Missing 1600 None)
  = (Ok true, Examples.world_of [] Missing 1600 None).
Proof. apply cold_start_sends. reflexivity. Defined.

(** C10 (record without a timestamp, empty record). A non-empty record
    that lacks [timestamp] is judged as the same record with
    [timestamp = 0]: the elapsed time is the clock reading itself, so once
    the clock has reached the cooldown the answer comes from the id and
    description comparison. A file that holds the empty object is a cold
    start: the answer is [True]. *)
Theorem missing_timestamp_is_epoch
    (disruption : dict pyval) (min_interval_minutes : Z) (w : world)
    (ts : list token) :
  w_file w = Content ts ->
  (forall ledger,
      json_loads ts = Ok (JObj ledger) ->
      ledger <> [] ->
      dict_get "timestamp" ledger = None ->
      (forall ts0,
          json_loads ts0 = Ok (JObj (dict_set "timestamp" (JNum 0) ledger)) ->
          fst (should_send_notification disruption min_interval_minutes w) =
          fst (should_send_notification disruption min_interval_minutes
                 (set_file (Content ts0) w)))
      /\ ((inject_Z (min_interval_minutes * 60) <= w_clock w (w_reads w))%Q ->
          fst (should_send_notification disruption min_interval_minutes w) =
            Ok (if py_ne (get_default "id" (PStr "") disruption)
                         (get_default "disruption_id" JNull ledger)
                then true
                else if py_ne (get_default "description" (PStr "") disruption)
                              (get_default "description" JNull ledger)
                     then true
                     else false)))
  /\ (json_loads ts = Ok (JObj []) ->
      should_send_notification disruption min_interval_minutes w = (Ok true, w)).
Proof.
  intros Hfile. split.
  - intros ledger Hload Hne Hnone.
    assert (Hstamp : as_number (get_default "timestamp" (JNum 0) ledger) = Ok 0%Q).
    { unfold get_default. now rewrite Hnone. }
    split.
    + intros ts0 Hload0.
      rewrite (should_send_on_record _ _ _ _ _ Hfile Hload Hne), Hstamp.
      rewrite (should_send_on_record _ _ (set_file (Content ts0) w) ts0 _
                 eq_refl Hload0 (dict_set_nonempty _ _ _)).
      unfold get_default at 1, verdict, get_default.
      rewrite dict_get_set_same.
      rewrite !dict_get_set_other by discriminate.
      reflexivity.
    + intros Hle.
      rewrite (should_send_on_record _ _ _ _ _ Hfile Hload Hne), Hstamp.
      assert (Hpast : Qlt_bool (w_clock w (w_reads w) - 0)
                               (inject_Z (min_interval_minutes * 60)) = false).
      { apply Qlt_bool_false_iff. unfold Qminus. now rewrite Qplus_0_r. }
      now rewrite Hpast.
  - intros Hload.
    unfold should_send_notification, bind, load_last_notification.
    now rewrite Hfile, Hload.
Qed.

Lemma missing_timestamp_is_epoch_witness :
  fst (should_send_notification Examples.candidate 30
         (Examples.world_of [] (Content Examples.no_timestamp) 1700000000 None))
  = Ok true
  /\ should_send_notification Examples.candidate 30
       (Examples.world_of [] (Content [LBrace; RBrace]) 1700000000 None)
     = (Ok true, Examples.world_of [] (Content [LBrace; RBrace]) 1700000000 None).
Proof.
  split.
  - refine (proj2 (proj1 (missing_timestamp_is_epoch Examples.candidate 30
                            (Examples.world_of [] (Content Examples.no_timestamp)
                                               1700000000 None)
                            Examples.no_timestamp eq_refl)
                     [("disruption_id", JStr "w-17"); ("description", JStr "old text")]
                     eq_refl _ eq_refl) _).
    + discriminate.
    + vm_compute. discriminate.
  - exact (proj2 (missing_timestamp_is_epoch Examples.candidate 30
                    (Examples.world_of [] (Content [LBrace; RBrace]) 1700000000 None)
                    [LBrace; RBrace] eq_refl) eq_refl).
Defined.

(** The filter writes nothing: it leaves the world as it found it, but for
    the clock reading it may have taken. *)
Lemma should_send_frame (disruption : dict pyval) (m : Z) (w : world) :
  snd (should_send_notification disruption m w) = w
  \/ snd (should_send_notification disruption m w) = tick w.
Proof.
  unfold should_send_notification, bind, load_last_notification, lift, ret,
    time_time.
  destruct (w_file w); simpl; auto.
  destruct (json_loads ts) as [j|e]; simpl; auto.
  destruct (truthy j); simpl; auto.
  destruct (json_get j "timestamp" (JNum 0)) as [stamp|e]; simpl; auto.
  destruct (as_number stamp) as [q|e]; simpl; auto.
  destruct (Qlt_bool _ _); simpl; auto.
  destruct (json_get j "disruption_id" JNull) as [i|e]; simpl; auto.
  destruct (py_ne _ i); simpl; auto.
  destruct (json_get j "description" JNull) as [x|e]; simpl; auto.
  destruct (py_ne _ x); simpl; auto.
Qed.

(** C7, as stated, fails: with the same candidate and the same cooldown
    the answer changes with the clock alone (first and second world) and
    with the ledger file alone (first and third world). *)
Lemma filter_not_pure_counterexample :
  let disruption := [("id", PStr "w-17"); ("description", PStr "Supply restored")] in
  fst (should_send_notification disruption 30
         (Examples.world_of [] (Content Examples.sent_at_1000) 1600 None))
  = Ok false
  /\ fst (should_send_notification disruption 30
            (Examples.world_of [] (Content Examples.sent_at_1000) 3400 None))
     = Ok true
  /\ fst (should_send_notification disruption 30
            (Examples.world_of [] Missing 1600 None))
     = Ok true.
Proof. vm_compute. repeat split. Qed.

(** C7, amended. [should_send_notification] takes the candidate and the
    cooldown as parameters and reads the ledger file and the clock itself.
    Its answer is a function of those four: two calls with the same
    parameters, on the same file content and the same clock reading, give
    the same answer. The call writes nothing. *)
Theorem filter_determined_by_file_and_clock
    (disruption : dict pyval) (min_interval_minutes : Z) (w1 w2 : world) :
  w_file w1 = w_file w2 ->
  w_clock w1 (w_reads w1) = w_clock w2 (w_reads w2) ->
  fst (should_send_notification disruption min_interval_minutes w1)
  = fst (should_send_notification disruption min_interval_minutes w2)
  /\ w_file (snd (should_send_notification disruption min_interval_minutes w1))
     = w_file w1
  /\ w_posted (snd (should_send_notification disruption min_interval_minutes w1))
     = w_posted w1.
Proof.
  intros Hfile Hclock. split.
  - unfold should_send_notification, bind, load_last_notification, lift, ret,
      time_time.
    rewrite Hfile.
    destruct (w_file w2); simpl; auto.
    destruct (json_loads ts) as [j|e]; simpl; auto.
    destruct (truthy j); simpl; auto.
    rewrite Hclock.
    destruct (json_get j "timestamp" (JNum 0)) as [stamp|e]; simpl; auto.
    destruct (as_number stamp) as [q|e]; simpl; auto.
    destruct (Qlt_bool _ _); simpl; auto.
    destruct (json_get j "disruption_id" JNull) as [i|e]; simpl; auto.
    destruct (py_ne _ i); simpl; auto.
    destruct (json_get j "description" JNull) as [x|e]; simpl; auto.
    destruct (py_ne _ x); simpl; auto.
  - destruct (should_send_frame disruption min_interval_minutes w1) as [-> | ->];
      split; reflexivity.
Qed.

Lemma filter_determined_by_file_and_clock_witness :
  fst (should_send_notification Examples.candidate 30
         (Examples.world_of [] (Content Examples.sent_at_1000) 3400 None))
  = fst (should_send_notification Examples.candidate 30
           (Examples.world_of [Examples.riverside] (Content Examples.sent_at_1000)
                              3400 (Some HTTPError))).
Proof.
  exact (proj1 (filter_determined_by_file_and_clock Examples.candidate 30
                  (Examples.world_of [] (Content Examples.sent_at_1000) 3400 None)
                  (Examples.world_of [Examples.riverside]
                                     (Content Examples.sent_at_1000) 3400
                                     (Some HTTPError))
                  eq_refl eq_refl)).
Defined.

(** ** The ledger *)

(** The record is always thirteen lexemes long. *)
Lemma encode_notification_data_length (t : Q) (disruption : dict pyval) :
  List.length (encode (notification_data t disruption)) = 13%nat.
Proof.
  unfold notification_data.
  destruct (get_default "id" (PStr "") disruption);
    destruct (get_default "description" (PStr "") disruption); reflexivity.
Qed.


(** C4, as stated, fails: the file holds the complete record of an
    earlier notification, the save of a new record is interrupted right
    after the file was opened, and the next load raises instead of
    returning either record. *)
Lemma interrupted_save_counterexample :
  let w := Examples.world_of [] (Content Examples.sent_at_1000) 3400 None in
  let disruption := [("id", PStr "w-17"); ("description", PStr "Supply restored")] in
  let w' := snd (interrupted_save 1 disruption w) in
  fst (load_last_notification w) = Ok (notification_data 1000 Examples.candidate)
  /\ w_file w' = Content []
  /\ fst (load_last_notification w') = Raise JSONDecodeError.
Proof. vm_compute. repeat split. Qed.

(** C4, amended. [save_last_notification] empties the file when it opens
    it and then writes the new record. After an interruption at any point,
    either the file is as it was (the interruption came before the file was
    opened, or the opening was refused), or a later load raises a decoding
    error, or it returns the complete new record. A load never returns a
    record that mixes fields of the old and the new one. From the
    fourteenth effect on the save is the complete one. *)
Theorem interrupted_save_outcomes
    (k : nat) (disruption : dict pyval) (w : world) :
  (w_file (snd (interrupted_save k disruption w)) = w_file w
   \/ fst (load_last_notification (snd (interrupted_save k disruption w)))
      = Raise JSONDecodeError
   \/ fst (load_last_notification (snd (interrupted_save k disruption w)))
      = Ok (notification_data (w_clock w (w_reads w)) disruption))
  /\ ((13 < k)%nat ->
      interrupted_save k disruption w = save_last_notification disruption w).
Proof.
  split.
  - destruct k as [|k]; [left; reflexivity|].
    unfold interrupted_save, bind, time_time, open_w, write,
      load_last_notification, notification_data.
    simpl.
    destruct (w_file w) eqn:E; simpl; [ | left; exact E | ];
      right;
      destruct (get_default "id" (PStr "") disruption);
      destruct (get_default "description" (PStr "") disruption);
      do 14 (destruct k as [|k]; [vm_compute; auto|]);
      vm_compute; auto.
  - intros Hk.
    destruct k as [|k]; [lia|].
    assert (Hall : forall t,
               firstn k (encode (notification_data t disruption))
               = encode (notification_data t disruption)).
    { intros t. apply firstn_all2.
      rewrite encode_notification_data_length. lia. }
    unfold interrupted_save, save_last_notification, bind, time_time.
    now rewrite Hall.
Qed.

Lemma interrupted_save_outcomes_witness :
  interrupted_save 14 Examples.candidate
    (Examples.world_of [] (Content Examples.no_timestamp) 3400 None)
  = save_last_notification Examples.candidate
      (Examples.world_of [] (Content Examples.no_timestamp) 3400 None).
Proof.
  apply (proj2 (interrupted_save_outcomes 14 Examples.candidate
                  (Examples.world_of [] (Content Examples.no_timestamp) 3400 None))).
  lia.
Defined.

(** ** The match extractor *)

Lemma starts_with_iff (n h : string) :
  starts_with n h = true <-> exists b, h = (n ++ b)%string.
Proof.
  revert h. induction n as [|c n IH]; intros h; simpl.
  - split; [intros _; now exists h | reflexivity].
  - destruct h as [|c' h].
    + split; [discriminate | intros [b Hb]; discriminate].
    + rewrite andb_true_iff, IH. split.
      * intros [Hc [b Hb]]. apply Ascii.eqb_eq in Hc. exists b. congruence.
      * intros [b Hb]. injection Hb as -> ->. split.
        -- apply Ascii.eqb_refl.
        -- now exists b.
Qed.

(** [contains] is the substring test. *)
Lemma contains_iff (n h : string) :
  contains n h = true <-> exists a b, h = (a ++ n ++ b)%string.
Proof.
  induction h as [|c h IH].
  - simpl. rewrite orb_false_r, starts_with_iff. split.
    + intros [b Hb]. now exists EmptyString, b.
    + intros [a [b Hb]]. destruct a; [now exists b | discriminate].
  - cbn [contains]. rewrite orb_true_iff, starts_with_iff, IH. split.
    + intros [[b Hb] | [a [b Hb]]].
      * now exists EmptyString, b.
      * exists (String c a), b. simpl. congruence.
    + intros [a [b Hb]]. destruct a as [|c' a].
      * left. now exists b.
      * right. exists a, b. simpl in Hb. congruence.
Qed.

Section Extractor.

Variable lower : string -> string.

(** An entry whose body is text that lacks the area falls through; one
    whose body is [None] raises. *)
Lemma scan_entry_cases (e : entry) (area : string) :
  match entry_body e with
  | PStr s =>
      scan_entry lower e area =
        if contains (lower area) (lower s) then Ok (Some (match_of e)) else Ok None
  | PNone => scan_entry lower e area = Raise AttributeError
  end.
Proof. unfold scan_entry. destruct (entry_body e); reflexivity. Qed.

(** Entries that do not return a match are passed over. *)
Lemma check_disruptions_skip (pre rest : list entry) (area : string) :
  (forall x d, In x pre -> scan_entry lower x area <> Ok (Some d)) ->
  check_disruptions lower (pre ++ rest) area = check_disruptions lower rest area.
Proof.
  induction pre as [|x pre IH]; intros Hpre; [reflexivity|].
  simpl. destruct (scan_entry lower x area) as [[d|]|err] eqn:E.
  - exfalso. exact (Hpre x d (or_introl eq_refl) E).
  - apply IH. intros y d Hy. apply Hpre. now right.
  - apply IH. intros y d Hy. apply Hpre. now right.
Qed.

(** C8 (first match). The body of an entry is its [summary] if it has
    one, else its [description] if it has one, else [str(entry)]. When no
    entry before [e] has a text body that contains the area, both in lower
    case, and [e] has one, the extractor returns the match of [e]: its
    [id] and [title], or the empty string for one it lacks, and the body
    as [description]. The entries after [e] play no part in the result. *)
Theorem check_disruptions_first_match
    (pre post : list entry) (e : entry) (area body : string) :
  (forall x s, In x pre -> entry_body x = PStr s ->
               contains (lower area) (lower s) = false) ->
  entry_body e = PStr body ->
  contains (lower area) (lower body) = true ->
  check_disruptions lower (pre ++ e :: post) area =
    Ok (Some [ ("id", match e_id e with Some v => v | None => PStr "" end);
               ("title", match e_title e with Some v => v | None => PStr "" end);
               ("description", PStr body) ])
  /\ entry_body e =
       match e_summary e with
       | Some v => v
       | None =>
           match e_description e with
           | Some v => v
           | None => PStr (e_str e)
           end
       end.
Proof.
  intros Hpre Hbody Hin. split; [|reflexivity].
  rewrite check_disruptions_skip.
  - simpl. pose proof (scan_entry_cases e area) as Hscan.
    rewrite Hbody, Hin in Hscan. rewrite Hscan.
    unfold match_of, getattr_or_empty. now rewrite Hbody.
  - intros x d Hx Hscan.
    pose proof (scan_entry_cases x area) as Hx'.
    destruct (entry_body x) as [s|] eqn:Ex.
    + rewrite (Hpre x s Hx Ex) in Hx'. congruence.
    + congruence.
Qed.

(** C9 (bad entries). The extractor never raises. An entry whose
    processing raises is skipped: the result is that of the sequence
    without it. When no entry returns a match, the result is [None]. *)
Theorem check_disruptions_skips_bad_entries (area : string) :
  (forall entries, exists r, check_disruptions lower entries area = Ok r)
  /\ (forall pre e post err,
         scan_entry lower e area = Raise err ->
         check_disruptions lower (pre ++ e :: post) area
         = check_disruptions lower (pre ++ post) area)
  /\ (forall entries,
         (forall e d, In e entries -> scan_entry lower e area <> Ok (Some d)) ->
         check_disruptions lower entries area = Ok None).
Proof.
  split; [|split].
  - induction entries as [|e entries [r IH]]; simpl.
    + now exists None.
    + destruct (scan_entry lower e area) as [[d|]|err].
      * now exists (Some d).
      * now exists r.
      * now exists r.
  - intros pre e post err Herr.
    induction pre as [|x pre IH]; simpl.
    + now rewrite Herr.
    + destruct (scan_entry lower x area) as [[d|]|err']; auto.
  - intros entries Hnone.
    rewrite <- (app_nil_r entries).
    now rewrite check_disruptions_skip.
Qed.

End Extractor.

Lemma check_disruptions_first_match_witness :
  check_disruptions ascii_lower
    [Examples.hilltop; Examples.riverside; Examples.riverside_again] "riverside"
  = Ok (Some Examples.candidate).
Proof.
  refine (proj1 (check_disruptions_first_match ascii_lower
                   [Examples.hilltop] [Examples.riverside_again]
                   Examples.riverside "riverside"
                   "Disruption in Riverside due to main break" _ eq_refl eq_refl)).
  intros x s [<- | []] Hs. injection Hs as <-. reflexivity.
Defined.

Lemma check_disruptions_skips_bad_entries_witness :
  scan_entry ascii_lower Examples.broken "riverside" = Raise AttributeError
  /\ check_disruptions ascii_lower
       [Examples.hilltop; Examples.broken; Examples.riverside] "riverside"
     = check_disruptions ascii_lower
         [Examples.hilltop; Examples.riverside] "riverside"
  /\ check_disruptions ascii_lower [Examples.hilltop; Examples.broken] "riverside"
     = Ok None.
Proof.
  split; [reflexivity | split].
  - exact (proj1 (proj2 (check_disruptions_skips_bad_entries ascii_lower "riverside"))
             [Examples.hilltop] Examples.broken [Examples.riverside]
             AttributeError eq_refl).
  - apply (proj2 (proj2 (check_disruptions_skips_bad_entries ascii_lower "riverside"))).
    intros e d [<- | [<- | []]]; discriminate.
Defined.

(** ** One pass *)

Lemma ensures_bind {A B : Type} (c : M A) (k : A -> M B) (w : world)
    (Q : outcome B -> world -> Prop) :
  ensures c w (fun r w1 =>
                 match r with
                 | Ok a => ensures (k a) w1 Q
                 | Raise e => Q (Raise e) w1
                 end) ->
  ensures (bind c k) w Q.
Proof. unfold ensures, bind. destruct (c w) as [[a|e] w1]; auto. Qed.

Lemma ensures_try_except {A : Type} (c : M A) (h : exn -> M A) (w : world)
    (Q : outcome A -> world -> Prop) :
  ensures c w (fun r w1 =>
                 match r with
                 | Ok a => Q (Ok a) w1
                 | Raise e => ensures (h e) w1 Q
                 end) ->
  ensures (try_except c h) w Q.
Proof. unfold ensures, try_except. destruct (c w) as [[a|e] w1]; auto. Qed.

Lemma save_keeps_posts (disruption : dict pyval) (w : world) :
  w_posted (snd (save_last_notification disruption w)) = w_posted w.
Proof.
  unfold save_last_notification, bind, time_time, open_w, write. simpl.
  destruct (w_file w); reflexivity.
Qed.

(** Nothing was sent and nothing was written. *)
Ltac quiet := cbv [ensures ret fst snd]; left; split; reflexivity.

(** The next statement is a pure one: name its value [x], or end the pass
    on its exception; a value met before is already known. *)
Ltac pure_step x :=
  apply ensures_bind; unfold ensures at 1; cbv [lift fst snd];
  lazymatch goal with
  | |- match ?o with Ok _ => _ | Raise _ => _ end =>
      destruct o as [x|]; [|quiet]
  | |- _ => idtac
  end.

Section Pass.

Variable lower : string -> string.
Variable py_int : string -> option Z.

(** The sending branch of the pass, from a world [w1] that differs from
    [w] by clock readings at most. *)
Lemma notify_effect (w w1 : world) (d : dict pyval) (m : Z)
    (api user title message : string) (Q := fun (_ : outcome unit) w' => pass_effect w w') :
  fst (should_send_notification d m w) = Ok true ->
  w1 = w \/ w1 = tick w ->
  ensures (send_pushover_notification api user title message ;;;
           save_last_notification d) w1
          (fun r w' => match r with
                       | Ok a => Q (Ok a) w'
                       | Raise e => ensures (ret tt) w' Q
                       end).
Proof.
  intros Hsend Hframe.
  assert (Hpush : w_pushover w1 = w_pushover w)
    by (destruct Hframe as [-> | ->]; reflexivity).
  assert (Hposted : w_posted w1 = w_posted w)
    by (destruct Hframe as [-> | ->]; reflexivity).
  assert (Hfile : w_file w1 = w_file w)
    by (destruct Hframe as [-> | ->]; reflexivity).
  set (data := mkForm api user title message).
  assert (Heffect : forall w',
             w_posted w' = w_posted w ++ [data] ->
             w_pushover w data = None \/ w_file w' = w_file w ->
             pass_effect w w').
  { intros w' Hp Hf. right. now exists d, m, data. }
  unfold ensures, bind, send_pushover_notification. fold data.
  rewrite Hpush.
  destruct (w_pushover w data) as [e|] eqn:Epush; cbn [fst snd].
  - apply Heffect; [simpl; now rewrite Hposted | right; exact Hfile].
  - pose proof (save_keeps_posts d (add_post data w1)) as Hsave.
    destruct (save_last_notification d (add_post data w1)) as [[[]|e] w2];
      cbn [fst snd ret] in *; (apply Heffect; [|now left]);
      rewrite Hsave; simpl; now rewrite Hposted.
Qed.

(** Every pass has the effect [pass_effect] allows. *)
Lemma main_effect (w : world) : pass_effect w (snd (main lower py_int w)).
Proof.
  change (ensures (main lower py_int) w (fun _ w' => pass_effect w w')).
  unfold main, main_body.
  apply ensures_try_except, ensures_bind.
  unfold ensures at 1, load_config.
  destruct (w_config w) as [config|]; cbv [fst snd]; [|quiet].
  pure_step rss. pure_step rss_url. pure_step rss. pure_step area.
  pure_step pushover. pure_step api_key. pure_step pushover. pure_step user_key.
  apply ensures_bind.
  assert (Hrest : forall min_interval : Z,
             ensures
               (feed <- fetch_rss_feed rss_url ;;
                disruption <- lift (check_disruptions lower feed area) ;;
                match disruption with
                | Some d =>
                    if found disruption
                    then
                      send <- should_send_notification d min_interval ;;
                      (if send
                       then
                         send_pushover_notification api_key user_key "Water Outage"
                           ("Disruption in " ++ area ++ ": "
                            ++ py_str (get_default "description" (PStr "") d)) ;;;
                         save_last_notification d
                       else ret tt)
                    else ret tt
                | None => ret tt
                end) w
               (fun r w1 =>
                  match r with
                  | Ok a => pass_effect w w1
                  | Raise e => ensures (ret tt) w1 (fun _ w' => pass_effect w w')
                  end)).
  { intros min_interval.
    apply ensures_bind. unfold ensures at 1, fetch_rss_feed. cbv [fst snd].
    destruct (w_feed w rss_url) as [feed|]; [|quiet].
    pure_step disruption.
    destruct disruption as [d|]; [|quiet].
    destruct (found (Some d)); [|quiet].
    apply ensures_bind. unfold ensures at 1.
    pose proof (should_send_frame d min_interval w) as Hframe.
    destruct (should_send_notification d min_interval w) as [[[|]|e] w1] eqn:Esend;
      cbn [fst snd] in *.
    - apply (notify_effect w w1 d min_interval); [now rewrite Esend | exact Hframe].
    - cbv [ensures ret fst snd]. left.
      destruct Hframe as [-> | ->]; split; reflexivity.
    - cbv [ensures ret fst snd]. left.
      destruct Hframe as [-> | ->]; split; reflexivity. }
  destruct (dict_get "NOTIFICATIONS" config) as [section|].
  - unfold ensures at 1, lift. cbv [fst snd].
    destruct (getint py_int "min_interval_minutes" 30 section) as [min_interval|];
      [apply Hrest | quiet].
  - unfold ensures at 1, ret. cbv [fst snd]. apply Hrest.
Qed.

End Pass.

(** C5 (absence is not corruption). A missing ledger file loads as the
    empty record, without an exception. A file that cannot be read or
    decoded makes [load_last_notification] raise; the exception passes
    through [should_send_notification] to [main], and the pass ends with
    no POST and no write: the failure is never taken for a cold start. *)
Theorem load_absent_or_error
    (lower : string -> string) (py_int : string -> option Z) (w : world) :
  (w_file w = Missing -> load_last_notification w = (Ok (JObj []), w))
  /\ (forall e,
         (w_file w = Denied /\ e = PermissionError)
         \/ (exists ts, w_file w = Content ts /\ json_loads ts = Raise e) ->
         load_last_notification w = (Raise e, w)
         /\ (forall d m, should_send_notification d m w = (Raise e, w))
         /\ w_posted (snd (main lower py_int w)) = w_posted w
         /\ w_file (snd (main lower py_int w)) = w_file w).
Proof.
  split.
  - intros Hfile. unfold load_last_notification. now rewrite Hfile.
  - intros e Hbad.
    assert (Hload : load_last_notification w = (Raise e, w)).
    { unfold load_last_notification.
      destruct Hbad as [[-> ->] | [ts [-> ->]]]; reflexivity. }
    assert (Hsend : forall d m, should_send_notification d m w = (Raise e, w)).
    { intros d m. unfold should_send_notification, bind. now rewrite Hload. }
    split; [exact Hload | split; [exact Hsend|]].
    destruct (main_effect lower py_int w) as [Hquiet | [d [m [data [Htrue _]]]]].
    + exact Hquiet.
    + rewrite Hsend in Htrue. discriminate.
Qed.

Lemma load_absent_or_error_witness :
  load_last_notification (Examples.world_of [Examples.riverside] Missing 1600 None)
  = (Ok (JObj []), Examples.world_of [Examples.riverside] Missing 1600 None)
  /\ load_last_notification
       (Examples.world_of [Examples.riverside] (Content []) 1600 None)
     = (Raise JSONDecodeError,
        Examples.world_of [Examples.riverside] (Content []) 1600 None)
  /\ w_posted (snd (main ascii_lower decimal_int
                      (Examples.world_of [Examples.riverside] (Content []) 1600 None)))
     = [].
Proof.
  split; [|split].
  - exact (proj1 (load_absent_or_error ascii_lower decimal_int
                    (Examples.world_of [Examples.riverside] Missing 1600 None))
             eq_refl).
  - refine (proj1 (proj2 (load_absent_or_error ascii_lower decimal_int
                            (Examples.world_of [Examples.riverside] (Content [])
                                               1600 None))
                     JSONDecodeError _)).
    right. exists []. split; reflexivity.
  - refine (proj1 (proj2 (proj2
             (proj2 (load_absent_or_error ascii_lower decimal_int
                       (Examples.world_of [Examples.riverside] (Content [])
                                          1600 None))
                JSONDecodeError _)))).
    right. exists []. split; reflexivity.
Defined.

(** C6 (save only after delivery). In a pass whose transport refuses
    every request, the ledger file ends as it began. Conversely, a pass
    that changed the file made a POST that the transport accepted. *)
Theorem ledger_saved_only_after_delivery
    (lower : string -> string) (py_int : string -> option Z) (w : world) :
  ((forall data, w_pushover w data <> None) ->
   w_file (snd (main lower py_int w)) = w_file w)
  /\ (w_file (snd (main lower py_int w)) <> w_file w ->
      exists data,
        w_posted (snd (main lower py_int w)) = w_posted w ++ [data]
        /\ w_pushover w data = None).
Proof.
  destruct (main_effect lower py_int w)
    as [[_ Hfile] | [d [m [data [_ [Hposted [Hok | Hfile]]]]]]].
  - split; [intros _; exact Hfile | intros Hne; contradiction].
  - split.
    + intros Hfail. exfalso. exact (Hfail data Hok).
    + intros _. now exists data.
  - split; [intros _; exact Hfile | intros Hne; contradiction].
Qed.

(** A pass that decides to send (a new id after the cooldown) and whose
    POST is refused: the request was made, and the file is as before. *)
Lemma ledger_saved_only_after_delivery_witness :
  let w := Examples.world_of [Examples.riverside_again]
                             (Content Examples.sent_at_1000) 3400
                             (Some HTTPError) in
  fst (should_send_notification (match_of Examples.riverside_again) 30 w)
  = Ok true
  /\ w_posted (snd (main ascii_lower decimal_int w))
     = [ mkForm "app" "me" "Water Outage"
           "Disruption in riverside: RIVERSIDE: supply restored" ]
  /\ w_file (snd (main ascii_lower decimal_int w))
     = Content Examples.sent_at_1000.
Proof.
  split; [reflexivity | split; [reflexivity|]].
  apply (proj1 (ledger_saved_only_after_delivery ascii_lower decimal_int
                  (Examples.world_of [Examples.riverside_again]
                                     (Content Examples.sent_at_1000) 3400
                                     (Some HTTPError)))).
  intros data. discriminate.
Defined.

(** ** The scenarios of the specification *)

(** No ledger: the first match is sent and recorded with its id and
    description. *)
Example first_match_is_sent_and_recorded :
  let w' := snd (main ascii_lower decimal_int
                   (Examples.world_of [Examples.hilltop; Examples.riverside]
                                      Missing 1600 None)) in
  w_posted w'
  = [ mkForm "app" "me" "Water Outage"
        "Disruption in riverside: Disruption in Riverside due to main break" ]
  /\ fst (load_last_notification w')
     = Ok (notification_data 1600 Examples.candidate).
Proof. vm_compute. split; reflexivity. Qed.

(** Ten minutes after a notification, the same disruption is skipped;
    forty minutes after, with a new description, it is sent and the record
    overwritten. The refused POST of the third pass is attempted and the
    record stays. *)
Example cooldown_then_change :
  let changed :=
    mkEntry (Some (PStr "Riverside: supply restored")) None
            (Some (PStr "w-17")) None "{}" in
  let skipped := snd (main ascii_lower decimal_int
                        (Examples.world_of [Examples.riverside]
                                           (Content Examples.sent_at_1000) 1600 None)) in
  let sent := snd (main ascii_lower decimal_int
                     (Examples.world_of [changed]
                                        (Content Examples.sent_at_1000) 3400 None)) in
  let refused := snd (main ascii_lower decimal_int
                        (Examples.world_of [changed]
                                           (Content Examples.sent_at_1000) 3400
                                           (Some HTTPError))) in
  (w_posted skipped = [] /\ w_file skipped = Content Examples.sent_at_1000)
  /\ (List.length (w_posted sent) = 1%nat
      /\ fst (load_last_notification sent)
         = Ok (JObj [ ("timestamp", JNum 3401); ("disruption_id", JStr "w-17");
                      ("description", JStr "Riverside: supply restored") ]))
  /\ (List.length (w_posted refused) = 1%nat
      /\ w_file refused = Content Examples.sent_at_1000).
Proof. vm_compute. repeat split. Qed.

(** ** The pass as a function of its inputs *)

Section PassRun.

Variable lower : string -> string.
Variable py_int : string -> option Z.

(** [main] never raises, and ends in [pass_result]. *)
Lemma main_run (w : world) :
  main lower py_int w = (Ok tt, pass_result lower py_int w).
Proof.
  unfold main, try_except, main_body, pass_result, pass_inputs, and_then,
    notify, notice, bind, load_config, lift, fetch_rss_feed, ret.
  cbn [f_title f_message].
  destruct (w_config w) as [config|]; [|reflexivity].
  repeat match goal with
         | |- context [getitem ?k ?d] => destruct (getitem k d); [|reflexivity]
         end.
  destruct (dict_get "NOTIFICATIONS" config) as [section|];
    [ destruct (getint py_int "min_interval_minutes" 30 section)
        as [min_interval|]; [|reflexivity] | ];
    (destruct (w_feed w _) as [feed|]; [|reflexivity]);
    (destruct (check_disruptions lower feed _) as [[d|]|]; try reflexivity);
    (destruct (found (Some d)); [|reflexivity]);
    (destruct (should_send_notification d _ w) as [[[|]|e] w1];
     try reflexivity);
    (destruct (send_pushover_notification _ _ _ _ w1) as [[[]|e] w2];
     [|reflexivity]);
    destruct (save_last_notification d w2) as [[[]|e] w3]; reflexivity.
Qed.

End PassRun.

(** ** Further properties of the ledger and of the repeat filter *)

Lemma py_ne_to_json (v : pyval) : py_ne v (to_json v) = false.
Proof. destruct v; simpl; [now rewrite String.eqb_refl | reflexivity]. Qed.

Lemma loads_notification_data (t : Q) (disruption : dict pyval) :
  json_loads (encode (notification_data t disruption))
  = Ok (notification_data t disruption).
Proof.
  unfold notification_data.
  destruct (get_default "id" (PStr "") disruption);
    destruct (get_default "description" (PStr "") disruption); reflexivity.
Qed.

Lemma save_run (disruption : dict pyval) (w : world) :
  w_file w <> Denied ->
  save_last_notification disruption w
  = (Ok tt,
     set_file (Content (encode (notification_data (w_clock w (w_reads w))
                                                   disruption)))
              (tick w)).
Proof.
  intros Hfile.
  unfold save_last_notification, bind, time_time, open_w, write. simpl.
  destruct (w_file w); try congruence; reflexivity.
Qed.

(** On a file that holds the record of [disruption], the filter answers
    [False] for [disruption], at any time and for any interval. *)
Lemma filter_on_own_record (disruption : dict pyval) (m : Z) (t : Q) (w : world) :
  w_file w = Content (encode (notification_data t disruption)) ->
  should_send_notification disruption m w = (Ok false, tick w).
Proof.
  intros Hfile.
  rewrite (should_send_on_record disruption m w _
             [ ("timestamp", JNum t);
               ("disruption_id", to_json (get_default "id" (PStr "") disruption));
               ("description",
                to_json (get_default "description" (PStr "") disruption)) ]
             Hfile (loads_notification_data t disruption));
    [|discriminate].
  cbn [get_default dict_get String.eqb Ascii.eqb Bool.eqb as_number].
  unfold verdict.
  cbn [get_default dict_get String.eqb Ascii.eqb Bool.eqb].
  rewrite !py_ne_to_json.
  now destruct (Qlt_bool _ _).
Qed.

(** X1 (round trip). On a file that can be written, a save succeeds,
    leaves exactly the new record in the file, whatever the file held
    before, and the next load returns that record: the clock reading of
    the save, the id and the description of the candidate. *)
Theorem save_then_load (disruption : dict pyval) (w : world) :
  w_file w <> Denied ->
  fst (save_last_notification disruption w) = Ok tt
  /\ w_file (snd (save_last_notification disruption w))
     = Content (encode (notification_data (w_clock w (w_reads w)) disruption))
  /\ fst (load_last_notification (snd (save_last_notification disruption w)))
     = Ok (JObj [ ("timestamp", JNum (w_clock w (w_reads w)));
                  ("disruption_id",
                   to_json (get_default "id" (PStr "") disruption));
                  ("description",
                   to_json (get_default "description" (PStr "") disruption)) ]).
Proof.
  intros Hfile. rewrite (save_run _ _ Hfile). cbn [fst snd].
  split; [reflexivity | split; [reflexivity|]].
  unfold load_last_notification. cbn [w_file set_file fst].
  now rewrite loads_notification_data.
Qed.

Lemma save_then_load_witness :
  fst (load_last_notification
         (snd (save_last_notification Examples.candidate
                 (Examples.world_of [] (Content Examples.no_timestamp) 3400 None))))
  = Ok (JObj [ ("timestamp", JNum 3400); ("disruption_id", JStr "w-17");
               ("description",
                JStr "Disruption in Riverside due to main break") ]).
Proof.
  refine (proj2 (proj2 (save_then_load Examples.candidate
                          (Examples.world_of [] (Content Examples.no_timestamp)
                                             3400 None) _))).
  discriminate.
Defined.

(** X2 (a recorded candidate is not repeated). Right after a save for a
    candidate, the filter answers [False] for the same candidate, for
    every interval and however much time has passed. *)
Theorem saved_candidate_is_suppressed
    (disruption : dict pyval) (min_interval_minutes : Z) (w : world) :
  w_file w <> Denied ->
  fst (should_send_notification disruption min_interval_minutes
         (snd (save_last_notification disruption w)))
  = Ok false.
Proof.
  intros Hfile. rewrite (save_run _ _ Hfile). cbn [snd].
  now rewrite (filter_on_own_record disruption min_interval_minutes
                 (w_clock w (w_reads w))).
Qed.

Lemma saved_candidate_is_suppressed_witness :
  fst (should_send_notification Examples.candidate 0
         (snd (save_last_notification Examples.candidate
                 (Examples.world_of [] Missing 3400 None))))
  = Ok false.
Proof.
  apply saved_candidate_is_suppressed. discriminate.
Defined.

(** X3 (a falsy document is a cold start). When the file decodes to a
    value that Python takes for false ([null], [false], [0], the empty
    string, array or object), the filter answers [True] without reading
    the clock. *)
Theorem falsy_ledger_is_cold_start
    (disruption : dict pyval) (min_interval_minutes : Z) (w : world)
    (ts : list token) (j : json) :
  w_file w = Content ts ->
  json_loads ts = Ok j ->
  truthy j = false ->
  should_send_notification disruption min_interval_minutes w = (Ok true, w).
Proof.
  intros Hfile Hload Hfalse.
  unfold should_send_notification, bind, load_last_notification.
  now rewrite Hfile, Hload, Hfalse.
Qed.

Lemma falsy_ledger_is_cold_start_witness :
  should_send_notification Examples.candidate 30
    (Examples.world_of [] (Content [TNull]) 1600 None)
  = (Ok true, Examples.world_of [] (Content [TNull]) 1600 None)
  /\ should_send_notification Examples.candidate 30
       (Examples.world_of [] (Content [LBrack; RBrack]) 1600 None)
     = (Ok true, Examples.world_of [] (Content [LBrack; RBrack]) 1600 None).
Proof.
  split.
  - exact (falsy_ledger_is_cold_start Examples.candidate 30
             (Examples.world_of [] (Content [TNull]) 1600 None)
             [TNull] JNull eq_refl eq_refl eq_refl).
  - exact (falsy_ledger_is_cold_start Examples.candidate 30
             (Examples.world_of [] (Content [LBrack; RBrack]) 1600 None)
             [LBrack; RBrack] (JArr []) eq_refl eq_refl eq_refl).
Defined.

(** X4 (a ledger of the wrong shape). When the file decodes to a true
    value that is not an object, the filter raises [AttributeError]; when
    it decodes to an object whose [timestamp] is not a number, the filter
    raises [TypeError]. Either way the pass makes no POST and leaves the
    file: until the file is repaired or removed, nothing is notified. *)
Theorem malformed_ledger_blocks
    (lower : string -> string) (py_int : string -> option Z) (w : world)
    (ts : list token) (j : json) (e : exn) :
  w_file w = Content ts ->
  json_loads ts = Ok j ->
  truthy j = true ->
  ((forall ledger, j <> JObj ledger) /\ e = AttributeError)
  \/ (exists ledger stamp,
         j = JObj ledger
         /\ dict_get "timestamp" ledger = Some stamp
         /\ as_number stamp = Raise e) ->
  (forall d m, fst (should_send_notification d m w) = Raise e)
  /\ w_posted (snd (main lower py_int w)) = w_posted w
  /\ w_file (snd (main lower py_int w)) = w_file w.
Proof.
  intros Hfile Hload Htrue Hshape.
  assert (Hraise : forall d m, fst (should_send_notification d m w) = Raise e).
  { intros d m.
    unfold should_send_notification, bind, load_last_notification.
    rewrite Hfile, Hload, Htrue. cbn [negb time_time lift].
    destruct Hshape as [[Hnot ->] | [ledger [stamp [-> [Hstamp Hnum]]]]].
    - destruct j; try reflexivity. exfalso. exact (Hnot m0 eq_refl).
    - cbn [json_get]. unfold get_default. now rewrite Hstamp, Hnum. }
  split; [exact Hraise|].
  destruct (main_effect lower py_int w) as [Hquiet | [d [m [data [Hsend _]]]]].
  - exact Hquiet.
  - rewrite Hraise in Hsend. discriminate.
Qed.

Lemma malformed_ledger_blocks_witness :
  w_posted (snd (main ascii_lower decimal_int
                   (Examples.world_of [Examples.riverside]
                      (Content [LBrack; TNumber 1; RBrack]) 1600 None)))
  = []
  /\ fst (should_send_notification Examples.candidate 30
            (Examples.world_of [Examples.riverside]
               (Content [LBrace; TString "timestamp"; Colon;
                         TString "yesterday"; RBrace]) 1600 None))
     = Raise TypeError.
Proof.
  split.
  - refine (proj1 (proj2 (malformed_ledger_blocks ascii_lower decimal_int
                            (Examples.world_of [Examples.riverside]
                               (Content [LBrack; TNumber 1; RBrack]) 1600 None)
                            [LBrack; TNumber 1; RBrack] (JArr [JNum 1])
                            AttributeError eq_refl eq_refl eq_refl _))).
    left. split; [discriminate | reflexivity].
  - refine (proj1 (malformed_ledger_blocks ascii_lower decimal_int
                     (Examples.world_of [Examples.riverside]
                        (Content [LBrace; TString "timestamp"; Colon;
                                  TString "yesterday"; RBrace]) 1600 None)
                     [LBrace; TString "timestamp"; Colon; TString "yesterday";
                      RBrace]
                     (JObj [("timestamp", JStr "yesterday")])
                     TypeError eq_refl eq_refl eq_refl _)
              Examples.candidate 30%Z).
    right. exists [("timestamp", JStr "yesterday")], (JStr "yesterday").
    repeat split.
Defined.

(** X5 (only three fields of the record count). Two ledger files that
    hold non-empty objects with the same [timestamp], [disruption_id] and
    [description] entries, present or absent alike, get the same answer
    at the same clock reading: other keys and the order of the keys play
    no part. *)
Theorem filter_reads_three_fields
    (disruption : dict pyval) (min_interval_minutes : Z) (w1 w2 : world)
    (ts1 ts2 : list token) (ledger1 ledger2 : dict json) :
  w_file w1 = Content ts1 -> json_loads ts1 = Ok (JObj ledger1) -> ledger1 <> [] ->
  w_file w2 = Content ts2 -> json_loads ts2 = Ok (JObj ledger2) -> ledger2 <> [] ->
  w_clock w1 (w_reads w1) = w_clock w2 (w_reads w2) ->
  dict_get "timestamp" ledger1 = dict_get "timestamp" ledger2 ->
  dict_get "disruption_id" ledger1 = dict_get "disruption_id" ledger2 ->
  dict_get "description" ledger1 = dict_get "description" ledger2 ->
  fst (should_send_notification disruption min_interval_minutes w1)
  = fst (should_send_notification disruption min_interval_minutes w2).
Proof.
  intros Hf1 Hl1 Hn1 Hf2 Hl2 Hn2 Hclock Hts Hid Hdesc.
  rewrite (should_send_on_record _ _ _ _ _ Hf1 Hl1 Hn1).
  rewrite (should_send_on_record _ _ _ _ _ Hf2 Hl2 Hn2).
  unfold verdict, get_default. rewrite Hts, Hid, Hdesc, Hclock.
  now destruct (as_number _).
Qed.

Lemma filter_reads_three_fields_witness :
  fst (should_send_notification Examples.candidate 30
         (Examples.world_of [] (Content Examples.sent_at_1000) 3400 None))
  = fst (should_send_notification Examples.candidate 30
           (Examples.world_of []
              (Content [ LBrace; TString "note"; Colon; TTrue; Comma;
                         TString "description"; Colon;
                         TString "Disruption in Riverside due to main break";
                         Comma; TString "disruption_id"; Colon; TString "w-17";
                         Comma; TString "timestamp"; Colon; TNumber 1000;
                         RBrace ])
              3400 None)).
Proof.
  refine (filter_reads_three_fields Examples.candidate 30
            (Examples.world_of [] (Content Examples.sent_at_1000) 3400 None)
            (Examples.world_of []
               (Content [ LBrace; TString "note"; Colon; TTrue; Comma;
                          TString "description"; Colon;
                          TString "Disruption in Riverside due to main break";
                          Comma; TString "disruption_id"; Colon; TString "w-17";
                          Comma; TString "timestamp"; Colon; TNumber 1000;
                          RBrace ])
               3400 None)
            Examples.sent_at_1000 _
            [ ("timestamp", JNum 1000); ("disruption_id", JStr "w-17");
              ("description", JStr "Disruption in Riverside due to main break") ]
            [ ("note", JBool true);
              ("description", JStr "Disruption in Riverside due to main break");
              ("disruption_id", JStr "w-17"); ("timestamp", JNum 1000) ]
            eq_refl eq_refl _ eq_refl eq_refl _ eq_refl eq_refl eq_refl eq_refl);
    discriminate.
Defined.

(** X6 (only the id and the description of the candidate count). Two
    candidates with the same [id] and the same [description], each absent
    or present alike up to the default, are filtered alike and recorded
    alike: the title is neither compared nor stored. *)
Theorem candidate_title_is_ignored
    (d1 d2 : dict pyval) (min_interval_minutes : Z) (w : world) :
  get_default "id" (PStr "") d1 = get_default "id" (PStr "") d2 ->
  get_default "description" (PStr "") d1 = get_default "description" (PStr "") d2 ->
  should_send_notification d1 min_interval_minutes w
  = should_send_notification d2 min_interval_minutes w
  /\ save_last_notification d1 w = save_last_notification d2 w.
Proof.
  intros Hid Hdesc.
  unfold should_send_notification, save_last_notification, notification_data.
  now rewrite Hid, Hdesc.
Qed.

Lemma candidate_title_is_ignored_witness :
  should_send_notification Examples.candidate 30
    (Examples.world_of [] (Content Examples.sent_at_1000) 3400 None)
  = should_send_notification
      [ ("id", PStr "w-17"); ("title", PStr "A new title");
        ("description", PStr "Disruption in Riverside due to main break") ] 30
      (Examples.world_of [] (Content Examples.sent_at_1000) 3400 None).
Proof.
  exact (proj1 (candidate_title_is_ignored Examples.candidate
                  [ ("id", PStr "w-17"); ("title", PStr "A new title");
                    ("description",
                     PStr "Disruption in Riverside due to main break") ]
                  30
                  (Examples.world_of [] (Content Examples.sent_at_1000) 3400 None)
                  eq_refl eq_refl)).
Defined.

(** ** Further properties of the match extractor *)

Lemma contains_empty (hay : string) : contains "" hay = true.
Proof. destruct hay; reflexivity. Qed.

Section ExtractorMore.

Variable lower : string -> string.

(** Where a returned match comes from. *)
Lemma check_disruptions_origin
    (entries : list entry) (area : string) (d : dict pyval) :
  check_disruptions lower entries area = Ok (Some d) ->
  exists e body,
    In e entries
    /\ d = match_of e
    /\ entry_body e = PStr body
    /\ contains (lower area) (lower body) = true
    /\ get_default "description" (PStr "") d = PStr body
    /\ found (Some d) = true.
Proof.
  induction entries as [|x entries IH]; intros H; [discriminate|].
  simpl in H.
  pose proof (scan_entry_cases lower x area) as Hx.
  destruct (entry_body x) as [body|] eqn:Ebody.
  - destruct (contains (lower area) (lower body)) eqn:Ein; rewrite Hx in H.
    + injection H as <-. exists x, body.
      repeat split; try assumption; try (now left).
    + destruct (IH H) as [e [b [Hin Hrest]]]. exists e, b. split; [now right | exact Hrest].
  - rewrite Hx in H.
    destruct (IH H) as [e [b [Hin Hrest]]]. exists e, b. split; [now right | exact Hrest].
Qed.

(** X7 (what a match is). Whatever the extractor returns comes from an
    entry of the feed: it is the match of an entry whose body is text that
    contains the area, both in lower case; its [description] is that body
    unchanged, and [if disruption:] holds for it. *)
Theorem check_disruptions_sound
    (entries : list entry) (area : string) (d : dict pyval) :
  check_disruptions lower entries area = Ok (Some d) ->
  exists e body,
    In e entries
    /\ d = match_of e
    /\ entry_body e = PStr body
    /\ contains (lower area) (lower body) = true
    /\ get_default "description" (PStr "") d = PStr body
    /\ found (Some d) = true.
Proof. apply check_disruptions_origin. Qed.

(** X8 (scanning two feeds in a row). The result on a concatenation is
    the match of the first part if it has one, and otherwise the result on
    the second part. *)
Theorem check_disruptions_app (l1 l2 : list entry) (area : string) :
  check_disruptions lower (l1 ++ l2) area =
    match check_disruptions lower l1 area with
    | Ok (Some d) => Ok (Some d)
    | _ => check_disruptions lower l2 area
    end.
Proof.
  induction l1 as [|x l1 IH]; [reflexivity|].
  simpl. destruct (scan_entry lower x area) as [[d|]|err]; auto.
Qed.

(** X9 (an empty area matches everything). When the area is empty in
    lower case, the first entry whose body is text is returned, whatever
    that text is. *)
Theorem empty_area_matches_first_text
    (pre post : list entry) (e : entry) (area body : string) :
  lower area = "" ->
  (forall x, In x pre -> entry_body x = PNone) ->
  entry_body e = PStr body ->
  check_disruptions lower (pre ++ e :: post) area = Ok (Some (match_of e)).
Proof.
  intros Harea Hpre Hbody.
  rewrite check_disruptions_skip.
  - simpl. pose proof (scan_entry_cases lower e area) as He.
    rewrite Hbody, Harea, contains_empty in He. now rewrite He.
  - intros x d Hx Hscan.
    pose proof (scan_entry_cases lower x area) as Hx'.
    rewrite (Hpre x Hx) in Hx'. congruence.
Qed.

(** X10 (the test is a substring test). An entry with a text body is
    returned exactly when the area in lower case occurs as a run of
    consecutive characters of the body in lower case; otherwise the
    result for it alone is [None]. *)
Theorem match_iff_substring (e : entry) (area body : string) :
  entry_body e = PStr body ->
  (check_disruptions lower [e] area = Ok (Some (match_of e))
   <-> exists a b, lower body = (a ++ lower area ++ b)%string)
  /\ (check_disruptions lower [e] area = Ok None
      <-> ~ exists a b, lower body = (a ++ lower area ++ b)%string).
Proof.
  intros Hbody. simpl.
  pose proof (scan_entry_cases lower e area) as He. rewrite Hbody in He.
  rewrite He. rewrite <- contains_iff.
  destruct (contains (lower area) (lower body)); split; split;
    try reflexivity; try discriminate; try congruence.
Qed.

End ExtractorMore.

Lemma check_disruptions_sound_witness :
  exists e body,
    In e [Examples.hilltop; Examples.riverside]
    /\ Examples.candidate = match_of e
    /\ entry_body e = PStr body
    /\ contains (ascii_lower "riverside") (ascii_lower body) = true
    /\ get_default "description" (PStr "") Examples.candidate = PStr body
    /\ found (Some Examples.candidate) = true.
Proof.
  exact (check_disruptions_sound ascii_lower
           [Examples.hilltop; Examples.riverside] "riverside"
           Examples.candidate eq_refl).
Defined.

Lemma empty_area_matches_first_text_witness :
  check_disruptions ascii_lower [Examples.broken; Examples.hilltop; Examples.riverside] ""
  = Ok (Some (match_of Examples.hilltop)).
Proof.
  refine (empty_area_matches_first_text ascii_lower [Examples.broken]
            [Examples.riverside] Examples.hilltop ""
            "Planned works in Hilltop" eq_refl _ eq_refl).
  intros x [<- | []]. reflexivity.
Defined.

Lemma match_iff_substring_witness :
  check_disruptions ascii_lower [Examples.riverside] "riverside"
  = Ok (Some (match_of Examples.riverside)).
Proof.
  apply (proj1 (match_iff_substring ascii_lower Examples.riverside "riverside"
                  "Disruption in Riverside due to main break" eq_refl)).
  exists "disruption in ", " due to main break". reflexivity.
Defined.

(** ** Further properties of a pass *)

Lemma app_tail_neq {A : Type} (l : list A) (x : A) : l <> l ++ [x].
Proof.
  intros H. apply (f_equal (@List.length A)) in H.
  rewrite length_app in H. simpl in H. lia.
Qed.

(** What the sending branch leaves behind. *)
Lemma notify_run (api_key user_key area : string) (d : dict pyval) (w1 : world) :
  snd (notify api_key user_key area d w1) =
    match w_pushover w1 (notice api_key user_key area d) with
    | Some _ => add_post (notice api_key user_key area d) w1
    | None =>
        snd (save_last_notification d
               (add_post (notice api_key user_key area d) w1))
    end.
Proof.
  unfold notify, bind, send_pushover_notification.
  cbn [f_title f_message notice].
  destruct (w_pushover w1 _); reflexivity.
Qed.

Lemma notify_posts (api_key user_key area : string) (d : dict pyval) (w1 : world) :
  w_posted (snd (notify api_key user_key area d w1))
  = w_posted w1 ++ [notice api_key user_key area d].
Proof.
  rewrite notify_run.
  destruct (w_pushover w1 _); [reflexivity|].
  now rewrite save_keeps_posts.
Qed.


(** The inputs of a pass depend on the configuration and on the feed
    source only. *)
Lemma pass_inputs_ext (lower : string -> string) (py_int : string -> option Z)
    (w w' : world) :
  w_config w' = w_config w -> w_feed w' = w_feed w ->
  pass_inputs lower py_int w' = pass_inputs lower py_int w.
Proof. unfold pass_inputs. now intros -> ->. Qed.

Section PassMore.

Variable lower : string -> string.
Variable py_int : string -> option Z.

(** A match among the inputs of a pass passes [if disruption:]. *)
Lemma pass_inputs_found (w : world) (area api_key user_key : string) (m : Z)
    (d : dict pyval) :
  pass_inputs lower py_int w = Ok (area, api_key, user_key, m, Some d) ->
  found (Some d) = true.
Proof.
  unfold pass_inputs, and_then. intros H.
  repeat match type of H with
         | context [match ?x with _ => _ end] =>
             destruct x eqn:?; try discriminate H
         end.
  injection H as ? ? ? ? ?. subst.
  match goal with
  | E : check_disruptions lower _ _ = Ok (Some _) |- _ =>
      destruct (check_disruptions_origin lower _ _ _ E)
        as [e [body [_ [_ [_ [_ [_ Hfound]]]]]]]
  end.
  exact Hfound.
Qed.

(** X11 (a pass ends well and posts at most once). [main] never raises,
    whatever fails inside it. It makes no POST or exactly one, and that
    one is titled [Water Outage]. *)
Theorem pass_posts_at_most_once (w : world) :
  fst (main lower py_int w) = Ok tt
  /\ (w_posted (snd (main lower py_int w)) = w_posted w
      \/ exists data,
           w_posted (snd (main lower py_int w)) = w_posted w ++ [data]
           /\ f_title data = "Water Outage").
Proof.
  rewrite main_run. cbn [fst snd]. split; [reflexivity|].
  unfold pass_result.
  destruct (pass_inputs lower py_int w)
    as [[[[[area api_key] user_key] m] [d|]]|]; auto.
  destruct (found (Some d)); auto.
  pose proof (should_send_frame d m w) as Hframe.
  destruct (should_send_notification d m w) as [[[|]|e] w1]; cbn [snd] in Hframe.
  - right. exists (notice api_key user_key area d).
    rewrite notify_posts.
    split; [|reflexivity].
    destruct Hframe as [-> | ->]; reflexivity.
  - left. destruct Hframe as [-> | ->]; reflexivity.
  - left. destruct Hframe as [-> | ->]; reflexivity.
Qed.

(** X12 (a broken configuration ends the pass at once). When
    [config.ini] is missing, or lacks the [RSS] or the [PUSHOVER] section
    or one of their four keys, or holds a [min_interval_minutes] that is
    not an integer, the pass ends without an exception and leaves the
    world as it found it: no POST, no write, no clock reading. *)
Theorem broken_config_ends_pass (w : world) :
  w_config w = None
  \/ (exists config,
         w_config w = Some config
         /\ (dict_get "RSS" config = None
             \/ dict_get "PUSHOVER" config = None
             \/ (exists rss,
                    dict_get "RSS" config = Some rss
                    /\ (dict_get "url" rss = None \/ dict_get "area" rss = None))
             \/ (exists pushover,
                    dict_get "PUSHOVER" config = Some pushover
                    /\ (dict_get "api_key" pushover = None
                        \/ dict_get "user_key" pushover = None))
             \/ (exists section s,
                    dict_get "NOTIFICATIONS" config = Some section
                    /\ dict_get "min_interval_minutes" section = Some s
                    /\ py_int s = None))) ->
  main lower py_int w = (Ok tt, w).
Proof.
  intros Hbroken. rewrite main_run. f_equal.
  unfold pass_result, pass_inputs, and_then, getitem, getint.
  destruct Hbroken as [-> | [config [-> Hconfig]]]; [reflexivity|].
  destruct Hconfig
    as [H | [H | [[rss [H [H' | H']]] | [[pushover [H [H' | H']]]
                                         | [section [s [H [H' H'']]]]]]]];
    repeat match goal with
           | |- context [match dict_get ?k ?d with _ => _ end] =>
               destruct (dict_get k d) eqn:?
           | |- context [match py_int ?s with _ => _ end] =>
               destruct (py_int s) eqn:?
           end;
    try reflexivity; congruence.
Qed.

(** X13 (nothing to report). With [url] and [area] read from the [RSS]
    section, when the fetch of [url] fails, or the feed it gives has no
    match for [area], the pass ends without an exception and leaves the
    world as it found it. *)
Theorem quiet_pass (w : world) (config : ini) (rss : dict string)
    (url area : string) :
  w_config w = Some config ->
  dict_get "RSS" config = Some rss ->
  dict_get "url" rss = Some url ->
  dict_get "area" rss = Some area ->
  (exists e, w_feed w url = Raise e)
  \/ (exists feed,
         w_feed w url = Ok feed
         /\ check_disruptions lower feed area = Ok None) ->
  main lower py_int w = (Ok tt, w).
Proof.
  intros Hconfig Hrss Hurl Harea Hfeed. rewrite main_run. f_equal.
  unfold pass_result, pass_inputs, and_then, getitem.
  rewrite Hconfig, Hrss, Hurl, Harea.
  destruct (dict_get "PUSHOVER" config) as [pushover|]; [|reflexivity].
  destruct (dict_get "api_key" pushover); [|reflexivity].
  destruct (dict_get "user_key" pushover); [|reflexivity].
  destruct (match dict_get "NOTIFICATIONS" config with
            | Some section => getint py_int "min_interval_minutes" 30 section
            | None => Ok 30%Z
            end); [|reflexivity].
  destruct Hfeed as [[e ->] | [feed [-> ->]]]; reflexivity.
Qed.




End PassMore.

(** The configuration plays no part after the inputs are read. *)
Lemma filter_set_config (c : option ini) (d : dict pyval) (m : Z) (w : world) :
  should_send_notification d m (set_config c w)
  = (fst (should_send_notification d m w),
     set_config c (snd (should_send_notification d m w))).
Proof.
  unfold should_send_notification, bind, load_last_notification, lift, ret,
    time_time.
  cbn [set_config w_file w_clock w_reads].
  destruct (w_file w); simpl; auto.
  destruct (json_loads ts) as [j|e]; simpl; auto.
  destruct (truthy j); simpl; auto.
  destruct (json_get j "timestamp" (JNum 0)) as [stamp|e]; simpl; auto.
  destruct (as_number stamp) as [q|e]; simpl; auto.
  destruct (Qlt_bool _ _); simpl; auto.
  destruct (json_get j "disruption_id" JNull) as [i|e]; simpl; auto.
  destruct (py_ne _ i); simpl; auto.
  destruct (json_get j "description" JNull) as [x|e]; simpl; auto.
  destruct (py_ne _ x); simpl; auto.
Qed.

Lemma notify_set_config (c : option ini) (api_key user_key area : string)
    (d : dict pyval) (w : world) :
  snd (notify api_key user_key area d (set_config c w))
  = set_config c (snd (notify api_key user_key area d w)).
Proof.
  rewrite !notify_run. cbn [set_config w_pushover].
  destruct (w_pushover w _); [reflexivity|].
  unfold save_last_notification, bind, time_time, open_w, write. simpl.
  destruct (w_file w); reflexivity.
Qed.

(** A later reading of the clock does not turn [True] into another
    answer, as long as the file is the same. *)
Lemma filter_stays_true (d : dict pyval) (m : Z) (w w' : world) :
  fst (should_send_notification d m w) = Ok true ->
  w_file w' = w_file w ->
  (w_clock w (w_reads w) <= w_clock w' (w_reads w'))%Q ->
  fst (should_send_notification d m w') = Ok true.
Proof.
  intros Htrue Hfile Hclock. revert Htrue.
  unfold should_send_notification, bind, load_last_notification, lift, ret,
    time_time.
  rewrite Hfile.
  destruct (w_file w); simpl; auto.
  destruct (json_loads ts) as [j|e]; simpl; auto.
  destruct (truthy j); simpl; auto.
  destruct (json_get j "timestamp" (JNum 0)) as [stamp|e]; simpl; auto.
  destruct (as_number stamp) as [q|e]; simpl; auto.
  destruct (Qlt_bool (w_clock w (w_reads w) - q) _) eqn:Eold; simpl;
    [discriminate|].
  assert (Enew : Qlt_bool (w_clock w' (w_reads w') - q) (inject_Z (m * 60)) = false).
  { apply Qlt_bool_false_iff. apply Qlt_bool_false_iff in Eold.
    apply (Qle_trans _ _ _ Eold).
    unfold Qminus. apply Qplus_le_compat; [exact Hclock | apply Qle_refl]. }
  rewrite Enew. simpl.
  destruct (json_get j "disruption_id" JNull) as [i|e]; simpl; auto.
  destruct (py_ne _ i); simpl; auto.
  destruct (json_get j "description" JNull) as [x|e]; simpl; auto.
  destruct (py_ne _ x); simpl; auto.
Qed.

Section PassConfig.

Variable lower : string -> string.
Variable py_int : string -> option Z.

Lemma pass_result_set_config (c : option ini) (w : world) :
  pass_inputs lower py_int (set_config c w) = pass_inputs lower py_int w ->
  pass_result lower py_int (set_config c w)
  = set_config c (pass_result lower py_int w).
Proof.
  intros Hin. unfold pass_result. rewrite Hin.
  destruct (pass_inputs lower py_int w)
    as [[[[[area api_key] user_key] m] [d|]]|]; try reflexivity.
  destruct (found (Some d)); [|reflexivity].
  rewrite filter_set_config.
  destruct (should_send_notification d m w) as [[[|]|e] w1]; cbn [fst snd];
    try reflexivity.
  apply notify_set_config.
Qed.

(** X16 (the default interval). A configuration without the
    [NOTIFICATIONS] section, or with the section but without
    [min_interval_minutes], runs exactly as the same configuration with
    the option written out as thirty. *)
Theorem default_interval_is_thirty (w : world) (config : ini) (s : string) :
  w_config w = Some config ->
  py_int s = Some 30%Z ->
  dict_get "NOTIFICATIONS" config = None
  \/ (exists section,
         dict_get "NOTIFICATIONS" config = Some section
         /\ dict_get "min_interval_minutes" section = None) ->
  main lower py_int
       (set_config (Some (dict_set "NOTIFICATIONS"
                                   [("min_interval_minutes", s)] config)) w)
  = (Ok tt,
     set_config (Some (dict_set "NOTIFICATIONS"
                                [("min_interval_minutes", s)] config))
                (snd (main lower py_int w))).
Proof.
  intros Hconfig Hs Hdefault.
  rewrite !main_run. cbn [snd]. f_equal.
  apply pass_result_set_config.
  unfold pass_inputs. cbn [set_config w_config w_feed]. rewrite Hconfig.
  unfold getitem.
  rewrite !(dict_get_set_other _ "NOTIFICATIONS") by discriminate.
  rewrite dict_get_set_same.
  assert (Hnew : getint py_int "min_interval_minutes" 30
                   [("min_interval_minutes", s)] = Ok 30%Z).
  { unfold getint. cbn [dict_get String.eqb Ascii.eqb Bool.eqb]. now rewrite Hs. }
  assert (Hold : match dict_get "NOTIFICATIONS" config with
                 | Some section => getint py_int "min_interval_minutes" 30 section
                 | None => Ok 30%Z
                 end = Ok 30%Z).
  { destruct Hdefault as [-> | [section [-> Hnone]]]; [reflexivity|].
    unfold getint. now rewrite Hnone. }
  now rewrite Hnew, Hold.
Qed.

(** After a refused POST the world is the one the filter left, with the
    request on record. *)
Lemma refused_pass_state (w : world) (data : form) (e : exn) :
  w_posted (pass_result lower py_int w) = w_posted w ++ [data] ->
  w_pushover w data = Some e ->
  exists area api_key user_key m d,
    pass_inputs lower py_int w = Ok (area, api_key, user_key, m, Some d)
    /\ fst (should_send_notification d m w) = Ok true
    /\ notice api_key user_key area d = data
    /\ pass_result lower py_int w
       = add_post data (snd (should_send_notification d m w)).
Proof.
  unfold pass_result. intros Hposted Hrefused.
  destruct (pass_inputs lower py_int w)
    as [[[[[area api_key] user_key] m] [d|]]|] eqn:Hin;
    try (exfalso; exact (app_tail_neq _ _ Hposted)).
  rewrite (pass_inputs_found lower py_int _ _ _ _ _ _ Hin) in *.
  pose proof (should_send_frame d m w) as Hframe.
  destruct (should_send_notification d m w) as [[[|]|e'] w1] eqn:Hsend;
    cbn [fst snd] in *;
    try (exfalso; destruct Hframe as [-> | ->];
         exact (app_tail_neq _ _ Hposted)).
  assert (Hsame : w_posted w1 = w_posted w /\ w_pushover w1 = w_pushover w)
    by (destruct Hframe as [-> | ->]; split; reflexivity).
  destruct Hsame as [Hp Hpush].
  rewrite notify_posts, Hp in Hposted.
  apply app_inj_tail in Hposted. destruct Hposted as [_ Hdata].
  exists area, api_key, user_key, m, d.
  rewrite Hsend. cbn [fst snd].
  split; [reflexivity | split; [reflexivity | split; [exact Hdata|]]].
  now rewrite notify_run, Hpush, Hdata, Hrefused.
Qed.

(** X17 (a refused notification is tried again). When a pass made a POST
    that the transport refused, and the clock has not gone back by the
    next pass, the next pass on the same configuration and feed makes the
    same POST again. *)
Theorem refused_notification_is_retried (w : world) (data : form) (e : exn) :
  w_posted (snd (main lower py_int w)) = w_posted w ++ [data] ->
  w_pushover w data = Some e ->
  (w_clock w (w_reads w)
   <= w_clock w (w_reads (snd (main lower py_int w))))%Q ->
  w_posted (snd (main lower py_int (snd (main lower py_int w))))
  = w_posted (snd (main lower py_int w)) ++ [data].
Proof.
  rewrite (main_run lower py_int w). cbn [snd]. intros Hposted Hrefused Hclock.
  rewrite main_run. cbn [snd].
  destruct (refused_pass_state w data e Hposted Hrefused)
    as [area [api_key [user_key [m [d [Hin [Htrue [Hdata Hstate]]]]]]]].
  rewrite Hstate in *. clear Hstate.
  pose proof (should_send_frame d m w) as Hframe.
  set (w1 := snd (should_send_notification d m w)) in *.
  assert (Hsame : w_file w1 = w_file w /\ w_config w1 = w_config w
                  /\ w_feed w1 = w_feed w /\ w_clock w1 = w_clock w)
    by (destruct Hframe as [-> | ->]; repeat split).
  destruct Hsame as [Hf [Hc [Hfe Hcl]]].
  unfold pass_result.
  rewrite (pass_inputs_ext lower py_int w (add_post data w1)) by assumption.
  rewrite Hin, (pass_inputs_found lower py_int _ _ _ _ _ _ Hin).
  assert (Hagain : fst (should_send_notification d m (add_post data w1)) = Ok true).
  { apply (filter_stays_true d m w (add_post data w1) Htrue Hf).
    cbn [add_post w_clock w_reads] in *. now rewrite Hcl. }
  pose proof (should_send_frame d m (add_post data w1)) as Hframe'.
  destruct (should_send_notification d m (add_post data w1)) as [r w2].
  cbn [fst snd] in *. subst r.
  rewrite notify_posts, Hdata.
  destruct Hframe' as [-> | ->]; reflexivity.
Qed.

(** X18 (a suppressed match changes nothing). When the pass reaches the
    filter with a match and the filter answers [False], the pass makes no
    POST and leaves the file. *)
Theorem suppressed_pass (w : world) (area api_key user_key : string)
    (m : Z) (d : dict pyval) :
  pass_inputs lower py_int w = Ok (area, api_key, user_key, m, Some d) ->
  fst (should_send_notification d m w) = Ok false ->
  w_posted (snd (main lower py_int w)) = w_posted w
  /\ w_file (snd (main lower py_int w)) = w_file w.
Proof.
  intros Hin Hfalse. rewrite main_run. cbn [snd]. unfold pass_result.
  rewrite Hin, (pass_inputs_found lower py_int _ _ _ _ _ _ Hin).
  pose proof (should_send_frame d m w) as Hframe.
  destruct (should_send_notification d m w) as [r w1].
  cbn [fst snd] in *. subst r.
  destruct Hframe as [-> | ->]; split; reflexivity.
Qed.

End PassConfig.

(** ** The further properties on the examples *)

Lemma broken_config_ends_pass_witness :
  main ascii_lower decimal_int
    (set_config None (Examples.world_of [Examples.riverside] Missing 1600 None))
  = (Ok tt,
     set_config None (Examples.world_of [Examples.riverside] Missing 1600 None))
  /\ main ascii_lower decimal_int
       (set_config (Some [("RSS", [("url", "https://example.org/feed")]);
                          ("PUSHOVER", [("api_key", "app"); ("user_key", "me")])])
                   (Examples.world_of [Examples.riverside] Missing 1600 None))
     = (Ok tt,
        set_config (Some [("RSS", [("url", "https://example.org/feed")]);
                          ("PUSHOVER", [("api_key", "app"); ("user_key", "me")])])
                   (Examples.world_of [Examples.riverside] Missing 1600 None)).
Proof.
  split.
  - apply broken_config_ends_pass. left. reflexivity.
  - apply broken_config_ends_pass. right.
    exists [("RSS", [("url", "https://example.org/feed")]);
            ("PUSHOVER", [("api_key", "app"); ("user_key", "me")])].
    split; [reflexivity|].
    right. right. left.
    exists [("url", "https://example.org/feed")].
    split; [reflexivity | right; reflexivity].
Defined.

Lemma quiet_pass_witness :
  main ascii_lower decimal_int
    (Examples.world_of [Examples.hilltop; Examples.broken] Missing 1600 None)
  = (Ok tt,
     Examples.world_of [Examples.hilltop; Examples.broken] Missing 1600 None).
Proof.
  refine (quiet_pass ascii_lower decimal_int
            (Examples.world_of [Examples.hilltop; Examples.broken] Missing 1600 None)
            Examples.config
            [("url", "https://example.org/feed"); ("area", "riverside")]
            "https://example.org/feed" "riverside"
            eq_refl eq_refl eq_refl eq_refl _).
  right. exists [Examples.hilltop; Examples.broken]. split; reflexivity.
Defined.



Lemma default_interval_is_thirty_witness :
  let config :=
    [("RSS", [("url", "https://example.org/feed"); ("area", "riverside")]);
     ("PUSHOVER", [("api_key", "app"); ("user_key", "me")])] in
  let w := set_config (Some config)
             (Examples.world_of [Examples.riverside]
                                (Content Examples.sent_at_1000) 1600 None) in
  main ascii_lower decimal_int
       (set_config (Some (dict_set "NOTIFICATIONS"
                                   [("min_interval_minutes", "30")] config)) w)
  = (Ok tt,
     set_config (Some (dict_set "NOTIFICATIONS"
                                [("min_interval_minutes", "30")] config))
                (snd (main ascii_lower decimal_int w))).
Proof.
  refine (default_interval_is_thirty ascii_lower decimal_int
            (set_config
               (Some [("RSS", [("url", "https://example.org/feed");
                               ("area", "riverside")]);
                      ("PUSHOVER", [("api_key", "app"); ("user_key", "me")])])
               (Examples.world_of [Examples.riverside]
                                  (Content Examples.sent_at_1000) 1600 None))
            [("RSS", [("url", "https://example.org/feed"); ("area", "riverside")]);
             ("PUSHOVER", [("api_key", "app"); ("user_key", "me")])]
            "30" eq_refl eq_refl _).
  left. reflexivity.
Defined.

Lemma refused_notification_is_retried_witness :
  let w := Examples.world_of [Examples.riverside] Missing 1600 (Some HTTPError) in
  w_posted (snd (main ascii_lower decimal_int
                   (snd (main ascii_lower decimal_int w))))
  = w_posted (snd (main ascii_lower decimal_int w))
    ++ [ mkForm "app" "me" "Water Outage"
           "Disruption in riverside: Disruption in Riverside due to main break" ].
Proof.
  refine (refused_notification_is_retried ascii_lower decimal_int
            (Examples.world_of [Examples.riverside] Missing 1600 (Some HTTPError))
            (mkForm "app" "me" "Water Outage"
               "Disruption in riverside: Disruption in Riverside due to main break")
            HTTPError eq_refl eq_refl _).
  vm_compute. discriminate.
Defined.

Lemma suppressed_pass_witness :
  let w := Examples.world_of [Examples.riverside]
                             (Content Examples.sent_at_1000) 1600 None in
  w_posted (snd (main ascii_lower decimal_int w)) = []
  /\ w_file (snd (main ascii_lower decimal_int w))
     = Content Examples.sent_at_1000.
Proof.
  exact (suppressed_pass ascii_lower decimal_int
           (Examples.world_of [Examples.riverside]
                              (Content Examples.sent_at_1000) 1600 None)
           "riverside" "app" "me" 30%Z Examples.candidate eq_refl eq_refl).
Defined.
